(** * Aurora cherry-picker: the commit-discovery and conflict-prediction core

    A shallow embedding of [tools/bluefin-cherry-picker.py] (classes [GitRepo]
    and [CherryPickerTool]) together with the properties of its record
    parsing, author filtering, change classification, PR-reference
    extraction and merge-simulation scan.

    Conventions of the embedding.
    - A Python [str] is a [string]; every character stands for one code
      point below 256.
    - A Python dict with a fixed set of keys is a record; a key that some
      return path leaves out is an [option] field.
    - Code that talks to git runs in a state-and-exception monad over an
      abstract repository (see [GitModel]). *)

From Stdlib Require Import String Ascii List Bool Arith ZArith Lia.
From Stdlib Require DecimalString.
Import ListNotations.

Open Scope string_scope.
Open Scope list_scope.

(* ================================================================== *)
(** * Python string primitives used by the tool *)
(* ================================================================== *)

Module PyStr.

(** [str.isspace] on a single character (code points below 256):
  TAB..CR, FS..US, SPACE, NEL and NBSP. *)
Definition isspace (c : ascii) : bool :=
let n := nat_of_ascii c in
(((9 <=? n) && (n <=? 13)) || ((28 <=? n) && (n <=? 32))
 || (n =? 133) || (n =? 160))%nat.

(** What the regex class [\d] accepts below code point 256. *)
Definition isdigit (c : ascii) : bool :=
let n := nat_of_ascii c in ((48 <=? n) && (n <=? 57))%nat.

(** Truth value of a string in a condition. *)
Definition truthy (s : string) : bool :=
match s with EmptyString => false | String _ _ => true end.

Fixpoint lstrip (s : string) : string :=
match s with
| EmptyString => EmptyString
| String c t => if isspace c then lstrip t else s
end.

Fixpoint rstrip (s : string) : string :=
match s with
| EmptyString => EmptyString
| String c t =>
    match rstrip t with
    | EmptyString => if isspace c then EmptyString else String c EmptyString
    | r => String c r
    end
end.

(** [s.strip()] *)
Definition strip (s : string) : string := rstrip (lstrip s).

(** [s.split(sep)] for a one-character separator. *)
Fixpoint split (sep : ascii) (s : string) : list string :=
match s with
| EmptyString => [EmptyString]
| String c t =>
    if Ascii.eqb c sep then EmptyString :: split sep t
    else match split sep t with
         | h :: r => String c h :: r
         | [] => [String c EmptyString]
         end
end.

(** [s.split(sep, maxsplit)] for a one-character separator. *)
Fixpoint splitn (sep : ascii) (maxsplit : nat) (s : string) {struct s}
: list string :=
match s with
| EmptyString => [EmptyString]
| String c t =>
    match maxsplit with
    | O => [s]
    | S m =>
        if Ascii.eqb c sep then EmptyString :: splitn sep m t
        else match splitn sep maxsplit t with
             | h :: r => String c h :: r
             | [] => [String c EmptyString]
             end
    end
end.

(** [s.startswith(p)] *)
Definition startswith (s p : string) : bool := String.prefix p s.

(** [needle in hay] on strings. *)
Fixpoint contains (needle hay : string) : bool :=
String.prefix needle hay
|| match hay with
   | EmptyString => false
   | String _ t => contains needle t
   end.

(** [s[n:]] *)
Fixpoint drop (n : nat) (s : string) : string :=
match n, s with
| O, _ => s
| S k, String _ t => drop k t
| S _, EmptyString => EmptyString
end.

(** [sep.join(parts)] *)
Definition join (sep : string) (parts : list string) : string :=
String.concat sep parts.

(** [x in xs] on a list of strings. *)
Definition mem (x : string) (xs : list string) : bool :=
existsb (String.eqb x) xs.

End PyStr.

(* ================================================================== *)
(** * The regular-expression fragment of [extract_pr_url] *)
(* ================================================================== *)

Module Regex.

(** The pattern [#(\d+)\)] is a sequence of literals around one greedy,
  capturing digit run. *)
Inductive atom : Type :=
| Lit (c : ascii)
| DigitsGroup.            (* (\d+) , capture group 1 *)

(** Greedy repetition with backtracking: having consumed [acc], take as
  many further digits as possible and fall back one digit at a time
  until the continuation [k] accepts. *)
Fixpoint more_digits (k : string -> string -> option string)
       (acc s : string) : option string :=
match s with
| EmptyString => k acc s
| String d t =>
    if PyStr.isdigit d then
      match more_digits k (acc ++ String d EmptyString) t with
      | Some r => Some r
      | None => k acc s
      end
    else k acc s
end.

(** Anchored match of the atoms [p] at the start of [s]; the result is
  the text of group 1. *)
Fixpoint match_here (p : list atom) (s : string) (grp : string)
: option string :=
match p with
| [] => Some grp
| Lit c :: p' =>
    match s with
    | String d t => if Ascii.eqb d c then match_here p' t grp else None
    | EmptyString => None
    end
| DigitsGroup :: p' =>
    match s with
    | String d t =>
        if PyStr.isdigit d
        then more_digits (fun g rest => match_here p' rest g)
                         (String d EmptyString) t
        else None
    | EmptyString => None
    end
end.

(** [re.search]: the match at the leftmost start position. *)
Fixpoint search (p : list atom) (s : string) : option string :=
match match_here p s EmptyString with
| Some g => Some g
| None =>
    match s with
    | EmptyString => None
    | String _ t => search p t
    end
end.

End Regex.

(** [r'#(\d+)\)'] *)
Definition pr_pattern : list Regex.atom :=
  [Regex.Lit "#"; Regex.DigitsGroup; Regex.Lit ")"].

(** [GitRepo.extract_pr_url] *)
Definition extract_pr_url (commit_subject project : string) : string :=
  match Regex.search pr_pattern commit_subject with
  | Some pr_number =>
      "https://github.com/ublue-os/" ++ project ++ "/pull/" ++ pr_number
  | None => ""
  end.

(* ================================================================== *)
(** * Records of the data model *)
(* ================================================================== *)

Definition LF : ascii := "010"%char.
Definition TAB : ascii := "009"%char.
Definition BAR : ascii := "|"%char.

(** One entry of the list returned by [get_commits_since]. *)
Record commit : Type := mk_commit
  { hash : string; author : string; date : string; subject : string }.

(** One entry of ['files'] in the result of [get_commit_file_changes]. *)
Record file_change : Type := mk_change
  { file : string; status : string }.

(** Result of [get_commit_file_changes]: ['files'], and ['error'] on the
    handler path only. *)
Record changes_result : Type := mk_changes_result
  { files : list file_change; files_error : option string }.

(** Result of [can_cherry_pick_cleanly]; the outer handler returns a
    dict without ['method'], the success path one without ['error']. *)
Record verdict : Type := mk_verdict
  { can_apply : bool;
    conflicts : list string;
    method : option string;
    error : option string }.

(** What [_display_commit_rich] gathers for one commit. *)
Record report_entry : Type := mk_report
  { entry_commit : commit;
    pr_url : string;
    file_changes : changes_result;
    compatibility : option verdict;
    diff : option string }.

(** Python exceptions that can occur in the modelled code. *)
Inductive exn : Type :=
  | CalledProcessError (cmd : list string) (returncode : Z)
                       (output stderr : string)
  | OtherException (msg : string)   (* OSError, IndexError, ...; [msg] is str(e) *)
  | SystemExit (code : Z)
  | KeyboardInterrupt.

(** [isinstance(e, Exception)]: what [except Exception] catches. *)
Definition is_Exception (e : exn) : bool :=
  match e with
  | CalledProcessError _ _ _ _ | OtherException _ => true
  | SystemExit _ | KeyboardInterrupt => false
  end.

(** Outcome of a Python computation. *)
Inductive pyres (A : Type) : Type :=
  | Ret (a : A)
  | Raise (e : exn).
Arguments Ret {A} a.
Arguments Raise {A} e.

(* ================================================================== *)
(** * Pure parts of [GitRepo] *)
(* ================================================================== *)

(** ** [get_commits_since]: the record parser *)

(** [exclude_author and exclude_author in parts[1]] *)
Definition author_excluded (exclude_author : option string) (a : string)
  : bool :=
  match exclude_author with
  | None => false
  | Some x => PyStr.truthy x && PyStr.contains x a
  end.

(** Body of the [for line in ...] loop of [get_commits_since]. *)
Definition commits_step (exclude_author : option string)
           (commits : list commit) (line : string) : list commit :=
  if PyStr.truthy (PyStr.strip line) then
    match PyStr.splitn BAR 3 line with
    | [p0; p1; p2; p3] =>
        if author_excluded exclude_author p1 then commits
        else commits ++ [mk_commit p0 p1 p2 p3]
    | _ => commits
    end
  else commits.

Definition parse_commits (exclude_author : option string) (stdout : string)
  : list commit :=
  fold_left (commits_step exclude_author)
            (PyStr.split LF (PyStr.strip stdout)) [].

(** ** [get_commit_file_changes]: status classification *)

Definition change_type_table : list (ascii * string) :=
  [ ("A"%char, "added"); ("M"%char, "modified"); ("D"%char, "deleted");
    ("R"%char, "renamed"); ("C"%char, "copied") ].

(** [dict.get(key, default)] on a dict literal. *)
Fixpoint dict_get (d : list (ascii * string)) (key : ascii)
         (default : string) : string :=
  match d with
  | [] => default
  | (k, v) :: d' => if Ascii.eqb k key then v else dict_get d' key default
  end.

(** [{...}.get(c, 'changed')] *)
Definition change_type (c : ascii) : string :=
  dict_get change_type_table c "changed".

(** [status[0]] raises IndexError on the empty string. *)
Definition first_char (s : string) : pyres ascii :=
  match s with
  | String c _ => Ret c
  | EmptyString => Raise (OtherException "string index out of range")
  end.

(** Body of the [for line in ...] loop of [get_commit_file_changes]. *)
Definition changes_step (changes : list file_change) (line : string)
  : pyres (list file_change) :=
  if PyStr.truthy (PyStr.strip line) then
    match PyStr.splitn TAB 1 (PyStr.strip line) with
    | [st; filepath] =>
        match first_char st with
        | Ret c => Ret (changes ++ [mk_change filepath (change_type c)])
        | Raise e => Raise e
        end
    | _ => Ret changes
    end
  else Ret changes.

Fixpoint changes_loop (changes : list file_change) (lines : list string)
  : pyres (list file_change) :=
  match lines with
  | [] => Ret changes
  | line :: rest =>
      match changes_step changes line with
      | Ret changes' => changes_loop changes' rest
      | Raise e => Raise e
      end
  end.

Definition parse_changes (stdout : string) : pyres (list file_change) :=
  changes_loop [] (PyStr.split LF (PyStr.strip stdout)).

(** ** [can_cherry_pick_cleanly]: the scan of the merge-tree output *)

(** ['<<<<<<<' in line or '>>>>>>>' in line or '=======' in line] *)
Definition has_marker (line : string) : bool :=
  PyStr.contains "<<<<<<<" line || PyStr.contains ">>>>>>>" line
  || PyStr.contains "=======" line.

(** Loop state: the list [conflicts] and the variable [current_file]. *)
Record scan_state : Type := mk_scan
  { sc_conflicts : list string; current_file : option string }.

(** Body of the [for line in lines] loop. *)
Definition scan_step (s : scan_state) (line : string) : scan_state :=
  if PyStr.startswith line "@@" then
    match current_file s with
    | Some f =>
        if PyStr.truthy f
        then mk_scan (sc_conflicts s ++ [f]) (current_file s)
        else s
    | None => s
    end
  else if PyStr.startswith line "+++" || PyStr.startswith line "---" then
    if PyStr.startswith line "+++"
       && negb (String.eqb line "+++ /dev/null")
    then mk_scan (sc_conflicts s) (Some (PyStr.drop 6 line))
    else s
  else if has_marker line then
    match current_file s with
    | Some f =>
        if PyStr.truthy f && negb (PyStr.mem f (sc_conflicts s))
        then mk_scan (sc_conflicts s ++ [f]) (current_file s)
        else s
    | None => s
    end
  else s.

(** The list [conflicts] after the scan of [merge_result.stdout]. *)
Definition scan_conflicts (stdout : string) : list string :=
  if PyStr.truthy (PyStr.strip stdout)
  then sc_conflicts (fold_left scan_step (PyStr.split LF stdout)
                               (mk_scan [] None))
  else [].

(** The dict returned after the scan. *)
Definition merge_tree_verdict (stdout : string) : verdict :=
  let conflicts := scan_conflicts stdout in
  let has_conflicts := (0 <? List.length conflicts)%nat in
  mk_verdict (negb has_conflicts) conflicts (Some "merge-tree") None.

(** The dict returned by the handler of [subprocess.CalledProcessError]
    around the merge-tree call. *)
Definition unknown_verdict : verdict :=
  mk_verdict false [] (Some "unknown") (Some "Could not test with merge-tree").

(** The dict returned by the outer [except Exception as e] handler, with
    [str(e)]; it has no ['method'] key. *)
Definition fault_verdict (msg : string) : verdict :=
  mk_verdict false [] None (Some msg).

(* ================================================================== *)
(** * [CherryPickerTool.show_status]: the bot filter *)
(* ================================================================== *)

Definition bot_authors : list string :=
  [ "ubot-7274[bot]"; "renovate[bot]"; "github-actions[bot]";
    "dependabot[bot]"; "blacksmith-sh[bot]" ].

(** [any(bot in commit['author'] for bot in patterns)] *)
Definition any_bot (patterns : list string) (c : commit) : bool :=
  existsb (fun bot => PyStr.contains bot (author c)) patterns.

(** Body of the [for commit in commits] loop that builds
    [filtered_commits]. *)
Definition filter_step (patterns : list string)
           (filtered_commits : list commit) (c : commit) : list commit :=
  if negb (any_bot patterns c) then filtered_commits ++ [c]
  else filtered_commits.

Definition filter_commits (patterns : list string) (commits : list commit)
  : list commit :=
  fold_left (filter_step patterns) commits [].

(** The filter as [show_status] runs it, with its fixed list. *)
Definition filtered_commits (commits : list commit) : list commit :=
  filter_commits bot_authors commits.

(* ================================================================== *)
(** * Git operations: state, console and exceptions *)
(* ================================================================== *)

(** What [subprocess.run] observes when it launches a command. *)
Inductive proc_outcome : Type :=
  | Exited (returncode : Z) (out err : string)
  | SpawnFault (msg : string)      (* OSError and the like, before or while running *)
  | Interrupted.                   (* Ctrl-C during the call *)

(** [subprocess.CompletedProcess] *)
Record CompletedProcess : Type := mk_completed
  { args : list string; returncode : Z; stdout : string; stderr : string }.

(** Run-time state: the repository (with everything else outside the
    process) and the lines printed so far. *)
Record rt (world : Type) : Type := mk_rt
  { repo : world; console : list string }.
Arguments mk_rt {world} repo console.
Arguments repo {world} r.
Arguments console {world} r.

Definition M (world A : Type) : Type := rt world -> pyres A * rt world.

Definition ret {world A} (a : A) : M world A := fun st => (Ret a, st).

Definition raise {world A} (e : exn) : M world A := fun st => (Raise e, st).

Definition bind {world A B} (m : M world A) (k : A -> M world B)
  : M world B :=
  fun st =>
    match m st with
    | (Ret a, st') => k a st'
    | (Raise e, st') => (Raise e, st')
    end.

(** [try: m  except <classes selected by h> as e: h e] *)
Definition try_except {world A} (m : M world A)
           (h : exn -> option (M world A)) : M world A :=
  fun st =>
    match m st with
    | (Ret a, st') => (Ret a, st')
    | (Raise e, st') =>
        match h e with
        | Some handler => handler st'
        | None => (Raise e, st')
        end
    end.

Definition print {world} (line : string) : M world unit :=
  fun st => (Ret tt, mk_rt (repo st) (console st ++ [line])).

(** [sys.exit(code)] *)
Definition sys_exit {world A} (code : Z) : M world A :=
  raise (SystemExit code).

Notation "x <- m ;; k" := (bind m (fun x => k))
  (at level 61, m at next level, right associativity).
Notation "m ;;; k" := (bind m (fun _ => k))
  (at level 61, right associativity).

(** What the date arithmetic of [get_commits_since] gives: the formatted
    date, or the [OverflowError] that [timedelta] and the subtraction
    raise when the result leaves the range of [datetime]. *)
Inductive date_outcome : Type :=
  | DateText (text : string)
  | DateOverflow (msg : string).

Section GitModel.

Variable world : Type.

(** The operating system running one command line against the
    repository. *)
Variable spawn : list string -> world -> proc_outcome * world.

(** [self.repo_path] *)
Variable repo_path : string.

(** [str(e)] of a [CalledProcessError], a library function. *)
Variable called_process_error_str : list string -> Z -> string.

(** [(datetime.now() - timedelta(days=days)).strftime('%Y-%m-%d')],
    read off the clock of the world. *)
Variable since_date : world -> Z -> date_outcome.

Local Abbreviation Git := (M world).

(** [str(e)] as the handlers use it; no handler of the tool binds a
    [SystemExit] or a [KeyboardInterrupt]. *)
Definition exn_str (e : exn) : string :=
  match e with
  | OtherException msg => msg
  | CalledProcessError cmd rc _ _ => called_process_error_str cmd rc
  | SystemExit _ | KeyboardInterrupt => ""
  end.

(** [subprocess.run(full_command, capture_output=True, text=True,
    check=check)] *)
Definition subprocess_run (full_command : list string) (check : bool)
  : Git CompletedProcess :=
  fun st =>
    let '(o, w) := spawn full_command (repo st) in
    let st' := mk_rt w (console st) in
    match o with
    | Exited rc out err =>
        if check && negb (rc =? 0)%Z
        then (Raise (CalledProcessError full_command rc out err), st')
        else (Ret (mk_completed full_command rc out err), st')
    | SpawnFault msg => (Raise (OtherException msg), st')
    | Interrupted => (Raise KeyboardInterrupt, st')
    end.

(** [GitRepo.run_git_command] *)
Definition run_git_command (command : list string) (check : bool)
  : Git CompletedProcess :=
  let full_command := ["git"; "-C"; repo_path] ++ command in
  try_except (subprocess_run full_command check)
    (fun e =>
       match e with
       | CalledProcessError _ _ _ e_stderr =>
           Some (if check then
                   print ("Git command failed: "
                            ++ PyStr.join " " full_command)%string ;;;
                   print ("Error: " ++ e_stderr)%string ;;;
                   sys_exit 1%Z
                 else raise e)
       | _ => None
       end).

(** [GitRepo.get_commits_since] *)
Definition get_commits_since (remote_branch : string) (days : Z)
           (exclude_author : option string) : Git (list commit) :=
  fun st =>
    match since_date (repo st) days with
    | DateOverflow msg => raise (OtherException msg) st
    | DateText since =>
        let format_str := "%H|%an|%ai|%s" in
        let command :=
          ["log"; ("--since=" ++ since)%string;
           ("--pretty=format:" ++ format_str)%string; remote_branch] in
        (result <- run_git_command command true ;;
         ret (parse_commits exclude_author (stdout result))) st
    end.

(** [GitRepo.get_commit_file_changes] *)
Definition get_commit_file_changes (commit_hash : string)
  : Git changes_result :=
  try_except
    (result <- run_git_command
                 ["diff-tree"; "--no-commit-id"; "--name-status"; "-r";
                  commit_hash] true ;;
     match parse_changes (stdout result) with
     | Ret changes => ret (mk_changes_result changes None)
     | Raise e => raise e
     end)
    (fun e =>
       if is_Exception e
       then Some (ret (mk_changes_result [] (Some (exn_str e))))
       else None).

(** [GitRepo.can_cherry_pick_cleanly] *)
Definition can_cherry_pick_cleanly (commit_hash : string) : Git verdict :=
  try_except
    (parent_result <- run_git_command
                        ["rev-parse"; (commit_hash ++ "^")%string] true ;;
     let parent_hash := PyStr.strip (stdout parent_result) in
     try_except
       (merge_result <- run_git_command
                          ["merge-tree"; parent_hash; "HEAD"; commit_hash]
                          false ;;
        ret (merge_tree_verdict (stdout merge_result)))
       (fun e =>
          match e with
          | CalledProcessError _ _ _ _ => Some (ret unknown_verdict)
          | _ => None
          end))
    (fun e =>
       if is_Exception e
       then Some (ret (fault_verdict (exn_str e)))
       else None).

(** [GitRepo.get_commit_diff] *)
Definition get_commit_diff (commit_hash : string) : Git string :=
  try_except
    (result <- run_git_command
                 ["show"; "--no-merges"; "--format="; commit_hash] true ;;
     ret (PyStr.strip (stdout result)))
    (fun e =>
       if is_Exception e
       then Some (ret ("Error getting diff: " ++ exn_str e)%string)
       else None).

(** [CherryPickerTool._display_commit_rich]: the calls it makes, in
    order, and the values it hands to the table; building and printing
    the table is left out. *)
Definition display_commit_rich (other_project : string) (c : commit)
           (test_compatibility show_diffs : bool) : Git report_entry :=
  let pr_url := extract_pr_url (subject c) other_project in
  file_changes <- get_commit_file_changes (hash c) ;;
  compatibility <-
    (if test_compatibility
     then v <- can_cherry_pick_cleanly (hash c) ;; ret (Some v)
     else ret None) ;;
  diff <-
    (if show_diffs
     then d <- get_commit_diff (hash c) ;; ret (Some d)
     else ret None) ;;
  ret (mk_report c pr_url file_changes compatibility diff).

(** The [for i, commit in enumerate(commits_to_process, 1)] loop of
    [show_status]. *)
Fixpoint display_commits (other_project : string) (commits : list commit)
         (test_compatibility show_diffs : bool)
  : Git (list report_entry) :=
  match commits with
  | [] => ret []
  | c :: rest =>
      e <- display_commit_rich other_project c
                               test_compatibility show_diffs ;;
      es <- display_commits other_project rest
                            test_compatibility show_diffs ;;
      ret (e :: es)
  end.

End GitModel.

Arguments subprocess_run {world} spawn full_command check.
Arguments run_git_command {world} spawn repo_path command check.
Arguments get_commits_since {world} spawn repo_path since_date
  remote_branch days exclude_author.
Arguments get_commit_file_changes {world} spawn repo_path
  called_process_error_str commit_hash.
Arguments can_cherry_pick_cleanly {world} spawn repo_path
  called_process_error_str commit_hash.
Arguments get_commit_diff {world} spawn repo_path
  called_process_error_str commit_hash.
Arguments display_commit_rich {world} spawn repo_path
  called_process_error_str other_project c test_compatibility show_diffs.
Arguments display_commits {world} spawn repo_path
  called_process_error_str other_project commits
  test_compatibility show_diffs.

(** The git subcommand of a full command line [git -C path sub ...]. *)
Definition git_subcommand (full_command : list string) : string :=
  nth 3 full_command "".

(** ** A scripted repository

    Every command line is answered from a fixed table and the repository
    never changes; used to run the operations on concrete transcripts. *)
Module Scripted.

Definition world : Type := unit.

Definition spawn (script : list string -> proc_outcome)
  : list string -> world -> proc_outcome * world :=
  fun cmd w => (script cmd, w).

Definition cpe_str (cmd : list string) (rc : Z) : string :=
  "Command returned non-zero exit status".

Definition start : rt world := mk_rt tt [].

Definition changes_of (script : list string -> proc_outcome)
           (commit_hash : string) : pyres changes_result * rt world :=
  get_commit_file_changes (spawn script) "." cpe_str commit_hash start.

Definition cherry_pick_test (script : list string -> proc_outcome)
           (commit_hash : string) : pyres verdict * rt world :=
  can_cherry_pick_cleanly (spawn script) "." cpe_str commit_hash start.

End Scripted.

(** ** A repository that records the commands it is asked to run *)
Module Logging.

Definition world : Type := list (list string).

Definition spawn (script : list string -> proc_outcome)
  : list string -> world -> proc_outcome * world :=
  fun cmd w => (script cmd, (w ++ [cmd])%list).

Definition start : rt world := mk_rt [] [].

Definition analysis (script : list string -> proc_outcome)
           (commits : list commit)
  : pyres (list report_entry) * rt world :=
  display_commits (spawn script) "." Scripted.cpe_str "bluefin" commits
                  true false start.

End Logging.

(** ** A repository that counts its writes

    [rev-parse] and [merge-tree] are answered from a table and leave the
    repository alone; any other command counts as one write. *)
Module Counting.

Definition world : Type := nat.

Definition reads (cmd : list string) : bool :=
  String.eqb (git_subcommand cmd) "rev-parse"
  || String.eqb (git_subcommand cmd) "merge-tree".

Definition spawn (script : list string -> proc_outcome)
  : list string -> world -> proc_outcome * world :=
  fun cmd w => if reads cmd then (script cmd, w)
               else (Exited 0 "" "", S w).

End Counting.

(* ================================================================== *)
(** * The remaining operations of [GitRepo] and [CherryPickerTool] *)
(* ================================================================== *)

(** [str.lower] on one character (code points below 256): the letters
    A-Z and the accented capitals of Latin-1 move 32 places up. *)
Definition lower_char (c : ascii) : ascii :=
  let n := nat_of_ascii c in
  if (((65 <=? n) && (n <=? 90)) || ((192 <=? n) && (n <=? 214))
      || ((216 <=? n) && (n <=? 222)))%nat
  then ascii_of_nat (n + 32)
  else c.

(** [s.lower()] *)
Fixpoint lower (s : string) : string :=
  match s with
  | EmptyString => EmptyString
  | String c t => String (lower_char c) (lower t)
  end.

(** The fields that [CherryPickerTool.__init__] sets ([self.git] is a
    [GitRepo] on the current directory). *)
Record CherryPickerTool : Type := mk_tool
  { our_project : string; other_project : string; remote_url : string }.

(** [CherryPickerTool.__init__] *)
Definition tool_init (our : string) : CherryPickerTool :=
  let other :=
    if String.eqb (lower our) "aurora" then "bluefin" else "aurora" in
  mk_tool (lower our) other
          (if String.eqb other "bluefin"
           then "https://github.com/ublue-os/bluefin.git"
           else "https://github.com/ublue-os/aurora.git").

(** [[f.strip() for f in text.strip().split('\n') if f.strip()]] *)
Definition stripped_lines (text : string) : list string :=
  map PyStr.strip
      (filter (fun f => PyStr.truthy (PyStr.strip f))
              (PyStr.split LF (PyStr.strip text))).

Section GitRemotes.

Variable world : Type.
Variable spawn : list string -> world -> proc_outcome * world.
Variable repo_path : string.

(** Rich's rendering of a markup string: the text it writes, or the
    exception it raises on markup it cannot parse. *)
Variable render : string -> pyres string.

Local Abbreviation Git := (M world).

(** [console.print(markup)] *)
Definition console_print (markup : string) : Git unit :=
  match render markup with
  | Ret text => print text
  | Raise e => raise e
  end.

(** [GitRepo.has_remote]; the bare [except:] catches everything. *)
Definition has_remote (remote_name : string) : Git bool :=
  try_except
    (result <- run_git_command spawn repo_path ["remote"] true ;;
     ret (PyStr.mem remote_name (PyStr.split LF (stdout result))))
    (fun _ => Some (ret false)).

(** [GitRepo.add_remote] *)
Definition add_remote (remote_name remote_url : string) : Git unit :=
  console_print ("[blue]Adding remote[/blue] [bold]" ++ remote_name
                   ++ "[/bold] [dim]-> " ++ remote_url ++ "[/dim]")%string ;;;
  _ <- run_git_command spawn repo_path
         ["remote"; "add"; remote_name; remote_url] true ;;
  ret tt.

(** [GitRepo.fetch_remote]; the spinner shown around the call is left
    out. *)
Definition fetch_remote (remote_name : string) : Git unit :=
  _ <- run_git_command spawn repo_path ["fetch"; remote_name] true ;;
  ret tt.

(** [GitRepo.get_current_branch] *)
Definition get_current_branch : Git string :=
  result <- run_git_command spawn repo_path ["branch"; "--show-current"]
                            true ;;
  ret (PyStr.strip (stdout result)).

(** [GitRepo.get_conflict_files] *)
Definition get_conflict_files : Git (list string) :=
  try_except
    (result <- run_git_command spawn repo_path
                 ["diff"; "--name-only"; "--diff-filter=U"] true ;;
     ret (stripped_lines (stdout result)))
    (fun _ => Some (ret [])).

(** [CherryPickerTool.setup_remote] *)
Definition setup_remote (t : CherryPickerTool) : Git unit :=
  present <- has_remote (other_project t) ;;
  (if negb present
   then add_remote (other_project t) (remote_url t)
   else ret tt) ;;;
  fetch_remote (other_project t).

End GitRemotes.

Arguments console_print {world} render markup.
Arguments has_remote {world} spawn repo_path remote_name.
Arguments add_remote {world} spawn repo_path render remote_name remote_url.
Arguments fetch_remote {world} spawn repo_path remote_name.
Arguments get_current_branch {world} spawn repo_path.
Arguments get_conflict_files {world} spawn repo_path.
Arguments setup_remote {world} spawn repo_path render t.

(* ================================================================== *)
(** * Texts that [_display_commit_rich] builds *)
(* ================================================================== *)

(** [s[:n]] *)
Fixpoint take (n : nat) (s : string) : string :=
  match n, s with
  | S k, String c t => String c (take k t)
  | _, _ => EmptyString
  end.

(** [str(n)] of a non-negative integer. *)
Definition str_of_nat (n : nat) : string :=
  DecimalString.NilEmpty.string_of_uint (Nat.to_uint n).

(** [commit['subject'][:60]] followed by ['...'] when the subject is
    longer than 60 characters. *)
Definition shown_subject (subject : string) : string :=
  (take 60 subject
   ++ (if (60 <? String.length subject)%nat then "..." else ""))%string.

Definition status_color_table : list (string * string) :=
  [ ("added", "green"); ("modified", "yellow"); ("deleted", "red");
    ("renamed", "blue"); ("copied", "magenta") ].

(** [dict.get(key, default)] on a dict literal with string keys. *)
Fixpoint str_dict_get (d : list (string * string)) (key default : string)
  : string :=
  match d with
  | [] => default
  | (k, v) :: d' =>
      if String.eqb k key then v else str_dict_get d' key default
  end.

(** [{...}.get(change['status'], 'white')] *)
Definition status_color (st : string) : string :=
  str_dict_get status_color_table st "white".

(** One entry of [file_details]. *)
Definition file_detail (change : file_change) : string :=
  let color := status_color (status change) in
  ("[" ++ color ++ "]" ++ status change ++ "[/" ++ color ++ "]: [dim]"
   ++ file change ++ "[/dim]")%string.

(** The list [file_details]: the first five files, and one more line when
    there are more than five. *)
Definition file_details (changes : list file_change) : list string :=
  let files_count := List.length changes in
  (map file_detail (firstn 5 changes)
   ++ (if (5 <? files_count)%nat
       then [("[dim]... and " ++ str_of_nat (files_count - 5)
              ++ " more[/dim]")%string]
       else []))%list.

(* ================================================================== *)
(** * Vocabulary of the statements *)
(* ================================================================== *)

Open Scope string_scope.

(** Every character of [s] satisfies [p]. *)
Fixpoint all_chars (p : ascii -> bool) (s : string) : bool :=
  match s with
  | EmptyString => true
  | String c t => p c && all_chars p t
  end.

(** [needle] occurs in [hay] as a contiguous block. *)
Definition substring_of (needle hay : string) : Prop :=
  exists pre suf, hay = pre ++ needle ++ suf.

(** The text [#<digits>)] with digits [d] sits in [subject] right after
    the prefix [pre]. *)
Definition pr_occurrence (subject pre d suf : string) : Prop :=
  subject = pre ++ "#" ++ d ++ ")" ++ suf
  /\ d <> "" /\ all_chars PyStr.isdigit d = true.

(** A commit is excluded when some pattern occurs in its author field. *)
Definition excluded (patterns : list string) (c : commit) : Prop :=
  exists p, In p patterns /\ substring_of p (author c).

(** [out] is [commits] with the excluded ones taken out and nothing else
    changed: same order, same repetitions. *)
Inductive survivors (patterns : list string)
  : list commit -> list commit -> Prop :=
  | surv_nil : survivors patterns [] []
  | surv_keep c commits out :
      ~ excluded patterns c ->
      survivors patterns commits out ->
      survivors patterns (c :: commits) (c :: out)
  | surv_drop c commits out :
      excluded patterns c ->
      survivors patterns commits out ->
      survivors patterns (c :: commits) out.

(** The six values of changeKind. *)
Definition change_kinds : list string :=
  ["added"; "modified"; "deleted"; "renamed"; "copied"; "changed"].

(** The character [x] does not occur in [s]. *)
Definition no_char (x : ascii) (s : string) : bool :=
  all_chars (fun c => negb (Ascii.eqb c x)) s.

(** The line that [--pretty=format:%H|%an|%ai|%s] prints for a commit. *)
Definition log_line (c : commit) : string :=
  hash c ++ "|" ++ author c ++ "|" ++ date c ++ "|" ++ subject c.

(** A record whose first three fields are free of the delimiter and whose
    fields all fit on one line; the subject may contain the delimiter. *)
Definition one_line_record (c : commit) : Prop :=
  no_char BAR (hash c) = true /\ no_char BAR (author c) = true
  /\ no_char BAR (date c) = true /\ no_char LF (log_line c) = true.

(** The invariant of a compatibility verdict: conflicting paths only on a
    verdict that is not applicable, and method [unknown] only on one that
    is not applicable. *)
Definition verdict_ok (v : verdict) : Prop :=
  (conflicts v <> [] -> can_apply v = false)
  /\ (method v = Some "unknown" -> can_apply v = false).

(** The two lines that [run_git_command] prints before [sys.exit(1)]. *)
Definition failure_report (full_command : list string) (err : string)
  : list string :=
  [ "Git command failed: " ++ PyStr.join " " full_command;
    "Error: " ++ err ].

(** ** Transcripts used as concrete inputs *)

(** Lines joined by newlines, as a process prints them. *)
Definition transcript (lines : list string) : string :=
  PyStr.join (String LF "") lines.

(** A merge result that touches [foo] in one hunk and has no conflict
    marker anywhere. *)
Definition hunk_without_marker : string :=
  transcript ["+++ b/foo"; "@@ -1 +1 @@"; "+x"].

(** A merge result with a conflict in [foo]. *)
Definition hunk_with_marker : string :=
  transcript ["+++ b/foo"; "+<<<<<<< .our"; "+a"; "+======="; "+b";
              "+>>>>>>> .their"].

(** [rev-parse] answers, [merge-tree] dies with status 128 and prints
    nothing on standard output. *)
Definition merge_tree_exits_128 (cmd : list string) : proc_outcome :=
  if String.eqb (git_subcommand cmd) "rev-parse"
  then Exited 0 (transcript ["1f2e3d4c"; ""]) ""
  else Exited 128 "" "fatal: unable to read tree".

(** [rev-parse] answers, the [merge-tree] process cannot be started. *)
Definition merge_tree_cannot_start (cmd : list string) : proc_outcome :=
  if String.eqb (git_subcommand cmd) "rev-parse"
  then Exited 0 (transcript ["1f2e3d4c"; ""]) ""
  else SpawnFault "[Errno 12] Cannot allocate memory".

(** [rev-parse] itself fails: the commit has no parent. *)
Definition rev_parse_exits_128 (cmd : list string) : proc_outcome :=
  Exited 128 "" "fatal: ambiguous argument".

(** [rev-parse] answers and [merge-tree] prints the given text. *)
Definition merge_tree_prints (text : string) (cmd : list string)
  : proc_outcome :=
  if String.eqb (git_subcommand cmd) "rev-parse"
  then Exited 0 (transcript ["1f2e3d4c"; ""]) ""
  else Exited 0 text "".

(** [diff-tree] fails with status 128. *)
Definition diff_tree_exits_128 (cmd : list string) : proc_outcome :=
  Exited 128 "" "fatal: bad object".

(** The [diff-tree] process cannot be started. *)
Definition diff_tree_cannot_start (cmd : list string) : proc_outcome :=
  SpawnFault "[Errno 2] No such file or directory: 'git'".

(** A line on which the scan appends the current file: a hunk header, or
    a line with a conflict marker that is not a [+++]/[---] header. *)
Definition records_conflict (line : string) : bool :=
  PyStr.startswith line "@@"
  || (negb (PyStr.startswith line "+++" || PyStr.startswith line "---")
      && has_marker line).

(** [f] is what the scan takes as file name from one of the [+++]
    header lines of [lines]. *)
Definition from_header (lines : list string) (f : string) : Prop :=
  exists line,
    In line lines /\ PyStr.startswith line "+++" = true
    /\ line <> "+++ /dev/null" /\ f = PyStr.drop 6 line.

(** The command lines of [setup_remote] for a tool, in the current
    directory. *)
Definition remote_cmd : list string := ["git"; "-C"; "."; "remote"].

Definition add_cmd (t : CherryPickerTool) : list string :=
  ["git"; "-C"; "."; "remote"; "add"; other_project t; remote_url t].

Definition fetch_cmd (t : CherryPickerTool) : list string :=
  ["git"; "-C"; "."; "fetch"; other_project t].

(** The markup that [add_remote] prints for a tool. *)
Definition add_markup (t : CherryPickerTool) : string :=
  "[blue]Adding remote[/blue] [bold]" ++ other_project t
    ++ "[/bold] [dim]-> " ++ remote_url t ++ "[/dim]".

(** [git remote] answered with status 0 and the tool's remote among the
    lines of its output. *)
Definition remote_listed (script : list string -> proc_outcome)
           (t : CherryPickerTool) : bool :=
  match script remote_cmd with
  | Exited 0 out _ => PyStr.mem (other_project t) (PyStr.split LF out)
  | _ => false
  end.

(** The command exits with status 0 under the script. *)
Definition exits_zero (script : list string -> proc_outcome)
           (cmd : list string) : bool :=
  match script cmd with
  | Exited 0 _ _ => true
  | _ => false
  end.

(** [git remote] lists the given names; every other command succeeds
    silently. *)
Definition remotes_are (names : list string) (cmd : list string)
  : proc_outcome :=
  if String.eqb (git_subcommand cmd) "remote"
     && Nat.eqb (List.length cmd) 4
  then Exited 0 (transcript (names ++ [""])) ""
  else Exited 0 "" "".

(** The no-break space, a blank for [str.strip]. *)
Definition NBSP : ascii := "160"%char.

(** A record with the blanks at the start of its hash removed. *)
Definition lstrip_hash (c : commit) : commit :=
  mk_commit (PyStr.lstrip (hash c)) (author c) (date c) (subject c).

(** A record with the blanks at the end of its subject removed. *)
Definition rstrip_subject (c : commit) : commit :=
  mk_commit (hash c) (author c) (date c) (PyStr.rstrip (subject c)).

(** [f] on the first element of a list. *)
Definition on_first {A : Type} (f : A -> A) (l : list A) : list A :=
  match l with
  | [] => []
  | x :: t => f x :: t
  end.

(** [f] on the last element of a list. *)
Fixpoint on_last {A : Type} (f : A -> A) (l : list A) : list A :=
  match l with
  | [] => []
  | x :: t =>
      match t with
      | [] => [f x]
      | _ :: _ => x :: on_last f t
      end
  end.

(** What [stdout.strip()] does to the records of a whole output: the
    first hash loses its leading blanks, the last subject its trailing
    ones. *)
Definition trim_ends (rs : list commit) : list commit :=
  on_last rstrip_subject (on_first lstrip_hash rs).

(** The two command lines of the oracle. *)
Definition rev_parse_cmd (repo_path commit_hash : string) : list string :=
  ["git"; "-C"; repo_path; "rev-parse"; commit_hash ++ "^"].

Definition merge_tree_cmd (repo_path parent_hash commit_hash : string)
  : list string :=
  ["git"; "-C"; repo_path; "merge-tree"; parent_hash; "HEAD"; commit_hash].

(** The command line of the collector. *)
Definition log_cmd (repo_path since remote_branch : string) : list string :=
  ["git"; "-C"; repo_path; "log"; "--since=" ++ since;
   "--pretty=format:%H|%an|%ai|%s"; remote_branch].

(** Longest digit prefix of a string, and what follows it. *)
Fixpoint digit_run (s : string) : string * string :=
  match s with
  | EmptyString => ("", "")
  | String c t =>
      if PyStr.isdigit c
      then let '(d, r) := digit_run t in (String c d, r)
      else ("", s)
  end.

(* ================================================================== *)
(** * Facts about strings *)
(* ================================================================== *)

Lemma sapp_assoc (a b c : string) : (a ++ b) ++ c = a ++ (b ++ c).
Proof. induction a as [|x a IH]; simpl; [reflexivity | now rewrite IH]. Qed.

Lemma sapp_nil_r (a : string) : a ++ "" = a.
Proof. induction a as [|x a IH]; simpl; [reflexivity | now rewrite IH]. Qed.

Lemma prefix_app (p s : string) : String.prefix p (p ++ s) = true.
Proof.
  induction p as [|x p IH]; simpl.
  - now destruct s.
  - destruct (ascii_dec x x) as [_|n]; [exact IH | now elim n].
Qed.

Lemma prefix_split (p s : string) :
  String.prefix p s = true -> exists suf, s = p ++ suf.
Proof.
  revert s; induction p as [|x p IH]; intros s H.
  - now exists s.
  - destruct s as [|y s]; simpl in H; [discriminate|].
    destruct (ascii_dec x y) as [->|]; [|discriminate].
    destruct (IH _ H) as [suf ->]. now exists suf.
Qed.

(** Python's [in] on strings is the contiguous-substring relation. *)
Lemma contains_spec (needle hay : string) :
  PyStr.contains needle hay = true <-> substring_of needle hay.
Proof.
  split.
  - induction hay as [|c hay IH]; cbn [PyStr.contains]; intros H.
    + rewrite orb_false_r in H. destruct (prefix_split _ _ H) as [suf E].
      now exists "", suf.
    + apply orb_true_iff in H as [H|H].
      * destruct (prefix_split _ _ H) as [suf E]. now exists "", suf.
      * destruct (IH H) as (pre & suf & ->). now exists (String c pre), suf.
  - intros (pre & suf & ->). induction pre as [|c pre IH].
    + change ("" ++ needle ++ suf) with (needle ++ suf).
      destruct (needle ++ suf) eqn:E; cbn [PyStr.contains];
        rewrite <- E, prefix_app; reflexivity.
    + change (String c pre ++ needle ++ suf)
        with (String c (pre ++ needle ++ suf)).
      cbn [PyStr.contains]. rewrite IH. apply orb_true_r.
Qed.

(* ================================================================== *)
(** * PRReferenceResolver: [extract_pr_url] *)
(* ================================================================== *)

Section PRReference.

(** The rest of the pattern after the digit group. *)
Let close_k : string -> string -> option string :=
  fun g rest => Regex.match_here [Regex.Lit ")"] rest g.

(** [r] starts with the closing parenthesis. *)
Let closes (r : string) : bool :=
  match r with
  | String x _ => Ascii.eqb x ")"
  | EmptyString => false
  end.

Lemma close_k_closes g r :
  close_k g r = if closes r then Some g else None.
Proof.
  destruct r as [|x r]; [reflexivity|].
  unfold close_k, closes; simpl. now destruct (Ascii.eqb x ")").
Qed.

Lemma digit_not_close c : PyStr.isdigit c = true -> Ascii.eqb c ")" = false.
Proof.
  intros H. destruct (Ascii.eqb_spec c ")") as [->|]; [discriminate H|].
  reflexivity.
Qed.

(** The greedy digit loop succeeds exactly when the longest digit run
    is followed by the closing parenthesis, and then captures the whole
    run. *)
Lemma more_digits_run (acc s : string) :
  Regex.more_digits close_k acc s =
  if closes (snd (digit_run s))
  then Some (acc ++ fst (digit_run s)) else None.
Proof.
  revert acc; induction s as [|c t IH]; intros acc.
  - reflexivity.
  - cbn [Regex.more_digits digit_run].
    destruct (PyStr.isdigit c) eqn:D.
    + rewrite IH. destruct (digit_run t) as [d r]; cbn [fst snd].
      rewrite sapp_assoc. cbn [append].
      destruct (closes r); [reflexivity|].
      rewrite close_k_closes. unfold closes.
      now rewrite digit_not_close.
    + cbn [fst snd]. rewrite sapp_nil_r. apply close_k_closes.
Qed.

Lemma digit_run_digits (s : string) :
  all_chars PyStr.isdigit (fst (digit_run s)) = true.
Proof.
  induction s as [|c t IH]; cbn [digit_run]; [reflexivity|].
  destruct (PyStr.isdigit c) eqn:D; [|reflexivity].
  destruct (digit_run t); cbn [fst all_chars] in *. now rewrite D.
Qed.

Lemma digit_run_app (s : string) :
  s = fst (digit_run s) ++ snd (digit_run s).
Proof.
  induction s as [|c t IH]; cbn [digit_run]; [reflexivity|].
  destruct (PyStr.isdigit c); [|reflexivity].
  destruct (digit_run t); cbn [fst snd append] in *. now rewrite <- IH.
Qed.

Lemma digit_run_closed (d suf : string) :
  all_chars PyStr.isdigit d = true ->
  digit_run (d ++ String ")" suf) = (d, String ")" suf).
Proof.
  induction d as [|c d IH]; cbn [all_chars append digit_run]; intros H.
  - reflexivity.
  - apply andb_true_iff in H as [Hc Hd]. now rewrite Hc, (IH Hd).
Qed.

(** An anchored match is an occurrence of [#<digits>)] at offset 0. *)
Lemma match_here_occurrence (s d : string) :
  Regex.match_here pr_pattern s "" = Some d <->
  exists suf, pr_occurrence s "" d suf.
Proof.
  unfold pr_occurrence. split.
  - destruct s as [|x [|c t]]; unfold pr_pattern;
      cbn [Regex.match_here]; try discriminate.
    + now destruct (Ascii.eqb x "#").
    + destruct (Ascii.eqb_spec x "#") as [->|]; [|discriminate].
      destruct (PyStr.isdigit c) eqn:D; [|discriminate].
      fold close_k. rewrite more_digits_run.
      pose proof (digit_run_app t) as A.
      pose proof (digit_run_digits t) as G.
      destruct (digit_run t) as [d' r]; cbn [fst snd] in *.
      destruct r as [|y r]; cbn [closes]; [discriminate|].
      destruct (Ascii.eqb_spec y ")") as [->|]; [|discriminate].
      intros [= <-]. exists r. repeat split.
      * cbn [append]. now rewrite A.
      * discriminate.
      * cbn [append all_chars]. now rewrite D, G.
  - intros (suf & E & Hne & Hd). cbn [append] in E. subst s.
    destruct d as [|c d]; [now elim Hne|].
    cbn [all_chars] in Hd. apply andb_true_iff in Hd as [Hc Hd].
    unfold pr_pattern. cbn [Regex.match_here append].
    rewrite Ascii.eqb_refl, Hc. fold close_k.
    rewrite more_digits_run, (digit_run_closed d suf Hd).
    cbn [fst snd closes append]. now rewrite Ascii.eqb_refl.
Qed.

Lemma search_unfold (s : string) :
  Regex.search pr_pattern s =
  match Regex.match_here pr_pattern s "" with
  | Some g => Some g
  | None => match s with
            | EmptyString => None
            | String _ t => Regex.search pr_pattern t
            end
  end.
Proof. destruct s; reflexivity. Qed.

Lemma occurrence_shift c t pre d suf :
  pr_occurrence t pre d suf -> pr_occurrence (String c t) (String c pre) d suf.
Proof. intros (E & H1 & H2). subst t. now repeat split. Qed.

(** Without an occurrence the search fails. *)
Lemma search_none (s : string) :
  (forall pre d suf, ~ pr_occurrence s pre d suf) ->
  Regex.search pr_pattern s = None.
Proof.
  induction s as [|c t IH]; intros H; rewrite search_unfold.
  - destruct (Regex.match_here pr_pattern "" "") as [g|] eqn:E; trivial.
    apply match_here_occurrence in E as [suf E]. now elim (H "" g suf).
  - destruct (Regex.match_here pr_pattern (String c t) "") as [g|] eqn:E.
    + apply match_here_occurrence in E as [suf E]. now elim (H "" g suf).
    + apply IH. intros pre d suf O.
      exact (H _ _ _ (occurrence_shift c t pre d suf O)).
Qed.

(** The search returns the digits of the occurrence that starts first. *)
Lemma search_leftmost (s pre d suf : string) :
  pr_occurrence s pre d suf ->
  (forall pre' d' suf',
      pr_occurrence s pre' d' suf' ->
      String.length pre <= String.length pre') ->
  Regex.search pr_pattern s = Some d.
Proof.
  revert s; induction pre as [|c pre IH]; intros s O Hmin;
    rewrite search_unfold.
  - assert (E : Regex.match_here pr_pattern s "" = Some d)
      by (apply match_here_occurrence; now exists suf).
    now rewrite E.
  - destruct (Regex.match_here pr_pattern s "") as [g|] eqn:E.
    + apply match_here_occurrence in E as [suf' E].
      specialize (Hmin _ _ _ E). cbn in Hmin. lia.
    + destruct O as (-> & Hne & Hd). cbn [append].
      apply IH.
      * now repeat split.
      * intros pre' d' suf' O'.
        specialize (Hmin _ _ _ (occurrence_shift c _ pre' d' suf' O')).
        cbn in Hmin. lia.
Qed.

(** With an occurrence somewhere the search succeeds. *)
Lemma search_some (s pre d suf : string) :
  pr_occurrence s pre d suf ->
  exists g, Regex.search pr_pattern s = Some g.
Proof.
  destruct (Regex.search pr_pattern s) as [g|] eqn:E; [now exists g|].
  intros O. exfalso. revert s E O.
  induction pre as [|c pre IH]; intros s E O; rewrite search_unfold in E.
  - assert (E' : Regex.match_here pr_pattern s "" = Some d)
      by (apply match_here_occurrence; now exists suf).
    now rewrite E' in E.
  - destruct (Regex.match_here pr_pattern s ""); [discriminate|].
    destruct O as (-> & Hne & Hd). cbn [append] in E.
    apply (IH _ E). now repeat split.
Qed.

(** A subject without the character [#] has no occurrence. *)
Lemma no_hash_no_occurrence (s : string) :
  all_chars (fun c => negb (Ascii.eqb c "#")) s = true ->
  forall pre d suf, ~ pr_occurrence s pre d suf.
Proof.
  intros H pre d suf (E & _). subst s.
  induction pre as [|c pre IH]; cbn [append all_chars] in H.
  - now rewrite Ascii.eqb_refl in H.
  - apply andb_true_iff in H as [_ H]. now apply IH.
Qed.

Lemma url_not_empty (project pr_number : string) :
  "https://github.com/ublue-os/" ++ project ++ "/pull/" ++ pr_number <> "".
Proof. discriminate. Qed.

(** C7. [extract_pr_url "Fix bug (#1234)" "bluefin"] is
    [https://github.com/ublue-os/bluefin/pull/1234], the subject
    ["Fix bug"] gives the empty string, and so does every subject in
    which no [#], one or more digits and [)] follow one another. *)
Theorem extract_pr_url_examples_and_no_match :
  extract_pr_url "Fix bug (#1234)" "bluefin"
    = "https://github.com/ublue-os/bluefin/pull/1234"
  /\ extract_pr_url "Fix bug" "bluefin" = ""
  /\ forall subject project,
       (forall pre d suf, ~ pr_occurrence subject pre d suf) ->
       extract_pr_url subject project = "".
Proof.
  split; [reflexivity|]. split; [reflexivity|].
  intros subject project H. unfold extract_pr_url.
  now rewrite (search_none subject H).
Qed.

(** C10. Whenever [#<digits>)] occurs anywhere in the subject (no opening
    parenthesis is asked for) the URL is not empty, and it is built from
    the digits of the occurrence that starts leftmost. *)
Theorem extract_pr_url_leftmost (subject project pre d suf : string) :
  pr_occurrence subject pre d suf ->
  extract_pr_url subject project <> ""
  /\ ((forall pre' d' suf',
          pr_occurrence subject pre' d' suf' ->
          String.length pre <= String.length pre') ->
      extract_pr_url subject project
        = "https://github.com/ublue-os/" ++ project ++ "/pull/" ++ d).
Proof.
  intros O. unfold extract_pr_url. split.
  - destruct (search_some _ _ _ _ O) as [g ->]. apply url_not_empty.
  - intros Hmin. now rewrite (search_leftmost _ _ _ _ O Hmin).
Qed.

End PRReference.

Lemma extract_pr_url_no_match_witness :
  (forall pre d suf, ~ pr_occurrence "Fix bug" pre d suf)
  /\ extract_pr_url "Fix bug" "aurora" = "".
Proof.
  assert (H : forall pre d suf, ~ pr_occurrence "Fix bug" pre d suf)
    by (apply no_hash_no_occurrence; reflexivity).
  split; [exact H|].
  exact (proj2 (proj2 extract_pr_url_examples_and_no_match) "Fix bug" "aurora" H).
Defined.

Lemma extract_pr_url_leftmost_witness :
  pr_occurrence "#12#34) and (#5)" "#12" "34" " and (#5)"
  /\ extract_pr_url "#12#34) and (#5)" "bluefin" <> ""
  /\ extract_pr_url "#12#34) and (#5)" "bluefin"
     = "https://github.com/ublue-os/bluefin/pull/34".
Proof.
  assert (O : pr_occurrence "#12#34) and (#5)" "#12" "34" " and (#5)")
    by (repeat split; [discriminate]).
  destruct (extract_pr_url_leftmost _ "bluefin" _ _ _ O) as [Hne Hleft].
  split; [exact O|]. split; [exact Hne|].
  apply Hleft. intros pre' d' suf' (E & Hd & Hall).
  destruct pre' as [|c0 [|c1 [|c2 pre']]]; cbn [append String.length] in *;
    try lia; injection E as; subst.
  - destruct d' as [|x [|y [|z d']]]; cbn [append] in *; try discriminate;
      try now elim Hd.
    injection H as; subst. discriminate.
  - discriminate.
  - discriminate.
Defined.

(* ================================================================== *)
(** * AuthorFilter: the bot filter of [show_status] *)
(* ================================================================== *)

Section AuthorFilter.

Variable patterns : list string.

Lemma any_bot_excluded (c : commit) :
  any_bot patterns c = true <-> excluded patterns c.
Proof.
  unfold any_bot, excluded. rewrite existsb_exists.
  split; intros (p & Hp & H); exists p; split; trivial;
    now apply contains_spec.
Qed.

(** The accumulating loop is a filter on the input sequence. *)
Lemma filter_loop (commits acc : list commit) :
  fold_left (filter_step patterns) commits acc
  = (acc ++ filter (fun c => negb (any_bot patterns c)) commits)%list.
Proof.
  revert acc; induction commits as [|c commits IH]; intros acc;
    cbn [fold_left filter].
  - now rewrite app_nil_r.
  - rewrite IH. unfold filter_step.
    destruct (negb (any_bot patterns c)); [|reflexivity].
    now rewrite <- app_assoc.
Qed.

Lemma filter_commits_filter (commits : list commit) :
  filter_commits patterns commits
  = filter (fun c => negb (any_bot patterns c)) commits.
Proof. unfold filter_commits. now rewrite filter_loop. Qed.

(** C6. A commit is dropped exactly when one of the patterns occurs in
    its author field (an exact, case-sensitive match of the characters):
    the result keeps the other commits, all of them, in their order. *)
Theorem filter_commits_complement (commits : list commit) :
  survivors patterns commits (filter_commits patterns commits)
  /\ forall c, In c (filter_commits patterns commits)
               <-> In c commits /\ ~ excluded patterns c.
Proof.
  rewrite filter_commits_filter. split.
  - induction commits as [|c commits IH]; cbn [filter].
    + constructor.
    + destruct (any_bot patterns c) eqn:E; cbn [negb].
      * apply surv_drop; [now apply any_bot_excluded | exact IH].
      * apply surv_keep; [|exact IH].
        intros X. apply any_bot_excluded in X. congruence.
  - intros c. rewrite filter_In, negb_true_iff.
    rewrite <- any_bot_excluded. now destruct (any_bot patterns c).
Qed.

(** The relation [survivors] leaves no choice about the result. *)
Lemma survivors_unique (commits out1 out2 : list commit) :
  survivors patterns commits out1 -> survivors patterns commits out2 ->
  out1 = out2.
Proof.
  intros S1. revert out2.
  induction S1 as [|c cs o N _ IH|c cs o X _ IH]; intros out2 S2;
    inversion S2; subst; try contradiction.
  - reflexivity.
  - f_equal. now apply IH.
  - now apply IH.
Qed.

End AuthorFilter.

(** The list fixed in [show_status]: a bot commit is dropped, and the
    match respects case. *)
Example filtered_commits_bots :
  filtered_commits
    [mk_commit "1f2e3d4c" "ann" "2025-01-03" "fix";
     mk_commit "5a6b7c8d" "renovate[bot]" "2025-01-02" "chore(deps)";
     mk_commit "9e0f1a2b" "Renovate[Bot]" "2025-01-01" "by hand"]
  = [mk_commit "1f2e3d4c" "ann" "2025-01-03" "fix";
     mk_commit "9e0f1a2b" "Renovate[Bot]" "2025-01-01" "by hand"].
Proof. reflexivity. Qed.

(* ================================================================== *)
(** * ChangeSetInspector: status classification *)
(* ================================================================== *)

Section ChangeKind.

Lemma lstrip_head (s : string) :
  match PyStr.lstrip s with
  | EmptyString => True
  | String c _ => PyStr.isspace c = false
  end.
Proof.
  induction s as [|c t IH]; cbn [PyStr.lstrip]; [exact I|].
  destruct (PyStr.isspace c) eqn:E; [exact IH | exact E].
Qed.

Lemma rstrip_head (c : ascii) (t : string) :
  PyStr.isspace c = false ->
  exists t', PyStr.rstrip (String c t) = String c t'.
Proof.
  intros H. cbn [PyStr.rstrip]. rewrite H.
  destruct (PyStr.rstrip t) as [|x r]; eauto.
Qed.

(** A stripped string is empty or starts with a non-blank character. *)
Lemma strip_head (s : string) :
  match PyStr.strip s with
  | EmptyString => True
  | String c _ => PyStr.isspace c = false
  end.
Proof.
  unfold PyStr.strip. pose proof (lstrip_head s) as H.
  destruct (PyStr.lstrip s) as [|c t]; [exact I|].
  destruct (rstrip_head c t H) as [t' ->]. exact H.
Qed.

Lemma splitn_head (sep c : ascii) (m : nat) (t : string) :
  Ascii.eqb c sep = false ->
  exists h r, PyStr.splitn sep (S m) (String c t) = String c h :: r.
Proof.
  intros H. cbn [PyStr.splitn]. rewrite H.
  destruct (PyStr.splitn sep (S m) t) as [|h r]; eauto.
Qed.

(** [status[0]] is always there: one loop iteration cannot raise, and
    what it appends is classified by the first character of the stripped
    line, which is the first character of the status code. *)
Lemma changes_step_total (changes : list file_change) (line : string) :
  changes_step changes line = Ret changes
  \/ exists filepath c rest,
       PyStr.strip line = String c rest
       /\ changes_step changes line
          = Ret (changes ++ [mk_change filepath (change_type c)])%list.
Proof.
  unfold changes_step. pose proof (strip_head line) as H.
  destruct (PyStr.strip line) as [|c t]; [now left|].
  cbn [PyStr.truthy].
  assert (N : Ascii.eqb c TAB = false).
  { destruct (Ascii.eqb_spec c TAB) as [->|]; [discriminate H|reflexivity]. }
  destruct (splitn_head TAB c 0 t N) as (h & r & ->).
  destruct r as [|filepath [|x r]]; [now left | | now left].
  right. now exists filepath, c, t.
Qed.

Lemma change_type_kind (c : ascii) : In (change_type c) change_kinds.
Proof.
  unfold change_type, change_type_table, change_kinds.
  cbn [dict_get In].
  repeat match goal with
         | |- context [if ?b then _ else _] => destruct b
         end; tauto.
Qed.

Lemma changes_loop_total (lines : list string) :
  forall acc,
    Forall (fun ch => In (status ch) change_kinds) acc ->
    exists changes,
      changes_loop acc lines = Ret changes
      /\ Forall (fun ch => In (status ch) change_kinds) changes.
Proof.
  induction lines as [|line lines IH]; intros acc Hacc;
    cbn [changes_loop]; [eauto|].
  destruct (changes_step_total acc line) as [->|(fp & c & t & _ & ->)].
  - now apply IH.
  - apply IH. apply Forall_app; split; trivial.
    constructor; [apply change_type_kind | constructor].
Qed.

(** C5. The classification looks at one character only: [A], [M], [D],
    [R] and [C] give added, modified, deleted, renamed and copied, every
    other character gives changed, so the value is always one of the six
    kinds; a status line is classified by its first non-blank character;
    and the parser of the diff-tree output always finds that character,
    whatever the output is. *)
Theorem change_type_total :
  change_type "A" = "added" /\ change_type "M" = "modified"
  /\ change_type "D" = "deleted" /\ change_type "R" = "renamed"
  /\ change_type "C" = "copied"
  /\ (forall c : ascii,
        c <> "A"%char -> c <> "M"%char -> c <> "D"%char ->
        c <> "R"%char -> c <> "C"%char ->
        change_type c = "changed")
  /\ (forall c : ascii, In (change_type c) change_kinds)
  /\ (forall changes line,
        changes_step changes line = Ret changes
        \/ exists filepath c rest,
             PyStr.strip line = String c rest
             /\ changes_step changes line
                = Ret (changes ++ [mk_change filepath (change_type c)])%list)
  /\ (forall stdout,
        exists changes,
          parse_changes stdout = Ret changes
          /\ Forall (fun ch => In (status ch) change_kinds) changes).
Proof.
  repeat (split; [reflexivity|]). split; [|split; [|split]].
  - intros c HA HM HD HR HC.
    unfold change_type, change_type_table. cbn [dict_get].
    repeat match goal with
           | |- context [Ascii.eqb ?k c] =>
               destruct (Ascii.eqb_spec k c); [congruence|]
           end.
    reflexivity.
  - exact change_type_kind.
  - exact changes_step_total.
  - intros stdout. apply changes_loop_total. constructor.
Qed.

End ChangeKind.

Lemma change_type_total_witness :
  "T"%char <> "A"%char /\ change_type "T" = "changed"
  /\ In (change_type "R") change_kinds.
Proof.
  destruct change_type_total as (_ & _ & _ & _ & _ & Hother & Hkind & _ & _).
  split; [discriminate|]. split.
  - apply Hother; discriminate.
  - apply Hkind.
Defined.

(* ================================================================== *)
(** * CommitWindowCollector: record parsing *)
(* ================================================================== *)

Section RecordParsing.

Lemma splitn_zero (sep : ascii) (s : string) : PyStr.splitn sep 0 s = [s].
Proof. now destruct s. Qed.

(** A field without the separator is cut off at the first separator. *)
Lemma splitn_field (sep : ascii) (m : nat) (f rest : string) :
  no_char sep f = true ->
  PyStr.splitn sep (S m) (f ++ String sep rest)
  = f :: PyStr.splitn sep m rest.
Proof.
  induction f as [|c f IH]; cbn [no_char all_chars append PyStr.splitn];
    intros H.
  - now rewrite Ascii.eqb_refl.
  - apply andb_true_iff in H as [Hc Hf]. apply negb_true_iff in Hc.
    rewrite Hc. fold (no_char sep f) in Hf. now rewrite (IH Hf).
Qed.

Lemma split_field (sep : ascii) (f rest : string) :
  no_char sep f = true ->
  PyStr.split sep (f ++ String sep rest) = f :: PyStr.split sep rest.
Proof.
  induction f as [|c f IH]; cbn [no_char all_chars append PyStr.split];
    intros H.
  - now rewrite Ascii.eqb_refl.
  - apply andb_true_iff in H as [Hc Hf]. apply negb_true_iff in Hc.
    rewrite Hc. fold (no_char sep f) in Hf. now rewrite (IH Hf).
Qed.

Lemma split_last (sep : ascii) (f : string) :
  no_char sep f = true -> PyStr.split sep f = [f].
Proof.
  induction f as [|c f IH]; cbn [no_char all_chars PyStr.split];
    intros H; [reflexivity|].
  apply andb_true_iff in H as [Hc Hf]. apply negb_true_iff in Hc.
  rewrite Hc. fold (no_char sep f) in Hf. now rewrite (IH Hf).
Qed.

Lemma join_cons (sep x y : string) (r : list string) :
  String.concat sep (x :: y :: r) = x ++ sep ++ String.concat sep (y :: r).
Proof. reflexivity. Qed.

(** Splitting the joined lines gives the lines back. *)
Lemma split_join (l : string) (ls : list string) :
  Forall (fun x => no_char LF x = true) (l :: ls) ->
  PyStr.split LF (PyStr.join (String LF "") (l :: ls)) = l :: ls.
Proof.
  revert l; induction ls as [|l' ls IH]; intros l H;
    inversion H as [|? ? Hl Hls]; subst.
  - now apply split_last.
  - unfold PyStr.join in *. rewrite join_cons. cbn [append].
    rewrite (split_field _ _ _ Hl). f_equal. now apply IH.
Qed.

(** A string with a non-blank character is not blank after [strip]. *)
Lemma strip_truthy (pre suf : string) (c : ascii) :
  PyStr.isspace c = false ->
  PyStr.truthy (PyStr.strip (pre ++ String c suf)) = true.
Proof.
  intros Hc. unfold PyStr.strip.
  assert (H : exists x t, PyStr.lstrip (pre ++ String c suf) = String x t
                          /\ PyStr.isspace x = false).
  { induction pre as [|y pre IH]; cbn [append PyStr.lstrip].
    - rewrite Hc. eauto.
    - destruct (PyStr.isspace y) eqn:E; eauto. }
  destruct H as (x & t & -> & Hx).
  now destruct (rstrip_head x t Hx) as [t' ->].
Qed.

(** The bounded split of a log line. *)
Lemma splitn_log_line (h a d s : string) :
  no_char BAR h = true -> no_char BAR a = true -> no_char BAR d = true ->
  PyStr.splitn BAR 3 (h ++ "|" ++ a ++ "|" ++ d ++ "|" ++ s) = [h; a; d; s].
Proof.
  intros Hh Ha Hd. cbn [append].
  change "|"%char with BAR.
  now rewrite (splitn_field _ _ _ _ Hh), (splitn_field _ _ _ _ Ha),
    (splitn_field _ _ _ _ Hd), splitn_zero.
Qed.

Lemma commits_step_log_line (x : option string) (commits : list commit)
      (h a d s : string) :
  no_char BAR h = true -> no_char BAR a = true -> no_char BAR d = true ->
  author_excluded x a = false ->
  commits_step x commits (h ++ "|" ++ a ++ "|" ++ d ++ "|" ++ s)
  = (commits ++ [mk_commit h a d s])%list.
Proof.
  intros Hh Ha Hd Hx. unfold commits_step.
  assert (T : PyStr.truthy
                (PyStr.strip (h ++ "|" ++ a ++ "|" ++ d ++ "|" ++ s)) = true)
    by exact (strip_truthy h (a ++ "|" ++ d ++ "|" ++ s) "|" eq_refl).
  now rewrite T, (splitn_log_line h a d s Hh Ha Hd), Hx.
Qed.

Lemma commits_step_record (commits : list commit) (r : commit) :
  one_line_record r ->
  commits_step None commits (log_line r) = (commits ++ [r])%list.
Proof.
  destruct r as [h a d s]. intros (Hh & Ha & Hd & _).
  now apply commits_step_log_line.
Qed.

Lemma commits_loop_records (rs acc : list commit) :
  Forall one_line_record rs ->
  fold_left (commits_step None) (map log_line rs) acc = (acc ++ rs)%list.
Proof.
  revert acc; induction rs as [|r rs IH]; intros acc H;
    cbn [map fold_left].
  - now rewrite app_nil_r.
  - inversion H as [|? ? Hr Hrs]; subst.
    now rewrite (commits_step_record acc r Hr), (IH _ Hrs), <- app_assoc.
Qed.

(** Output made of well-formed lines, with no blank margin for the
    leading [strip] to remove, parses back to the records. *)
Lemma parse_commits_records (rs : list commit) :
  Forall one_line_record rs ->
  let out := PyStr.join (String LF "") (map log_line rs) in
  PyStr.strip out = out ->
  parse_commits None out = rs.
Proof.
  intros H out Hs. unfold parse_commits. rewrite Hs. subst out.
  destruct rs as [|r rs]; [reflexivity|].
  cbn [map]. rewrite split_join.
  - now rewrite <- map_cons, commits_loop_records.
  - rewrite <- map_cons. apply Forall_map.
    eapply Forall_impl; [|exact H]. now intros c (_ & _ & _ & L).
Qed.

End RecordParsing.

(* ================================================================== *)
(** * Git operations *)
(* ================================================================== *)

Section GitFacts.

Variable world : Type.
Variable spawn : list string -> world -> proc_outcome * world.
Variable repo_path : string.
Variable cpe_str : list string -> Z -> string.
Variable since_date : world -> Z -> date_outcome.

Let full (command : list string) : list string :=
  "git" :: "-C" :: repo_path :: command.

(** What [run_git_command] does, by outcome of the process: a non-zero
    exit under [check=True] prints two lines and leaves through
    [sys.exit(1)]; under [check=False] every exit status is returned. *)
Lemma run_git_command_spec (command : list string) (check : bool)
      (st : rt world) :
  run_git_command spawn repo_path command check st =
  match spawn (full command) (repo st) with
  | (Exited rc out err, w) =>
      if check && negb (rc =? 0)%Z
      then (Raise (SystemExit 1),
            mk_rt w (console st ++ failure_report (full command) err)%list)
      else (Ret (mk_completed (full command) rc out err),
            mk_rt w (console st))
  | (SpawnFault msg, w) => (Raise (OtherException msg), mk_rt w (console st))
  | (Interrupted, w) => (Raise KeyboardInterrupt, mk_rt w (console st))
  end.
Proof.
  unfold run_git_command, try_except, subprocess_run, full.
  cbn [app]. destruct (spawn _ (repo st)) as [[rc out err|msg|] w];
    try reflexivity.
  destruct check, (rc =? 0)%Z; cbn [andb negb]; try reflexivity.
  unfold bind, print, sys_exit, raise. cbn [repo console].
  now rewrite <- app_assoc.
Qed.

(** No exception of class [CalledProcessError] leaves
    [run_git_command]. *)
Lemma run_git_command_no_cpe command check st cmd rc out err st' :
  run_git_command spawn repo_path command check st
  <> (Raise (CalledProcessError cmd rc out err), st').
Proof.
  rewrite run_git_command_spec.
  destruct (spawn _ (repo st)) as [[rc' out' err'|msg|] w];
    try discriminate.
  destruct (check && negb (rc' =? 0)%Z); discriminate.
Qed.

(** [can_cherry_pick_cleanly], path by path. *)
Lemma can_cherry_pick_cleanly_spec (commit_hash : string) (st : rt world) :
  can_cherry_pick_cleanly spawn repo_path cpe_str commit_hash st =
  match spawn (full ["rev-parse"; commit_hash ++ "^"]) (repo st) with
  | (Exited rc out err, w) =>
      if negb (rc =? 0)%Z
      then (Raise (SystemExit 1),
            mk_rt w (console st
                     ++ failure_report
                          (full ["rev-parse"; (commit_hash ++ "^")%string])
                          err)%list)
      else
        match spawn (full ["merge-tree"; PyStr.strip out; "HEAD";
                           commit_hash]) w with
        | (Exited _ out2 _, w2) =>
            (Ret (merge_tree_verdict out2), mk_rt w2 (console st))
        | (SpawnFault msg, w2) =>
            (Ret (fault_verdict msg), mk_rt w2 (console st))
        | (Interrupted, w2) =>
            (Raise KeyboardInterrupt, mk_rt w2 (console st))
        end
  | (SpawnFault msg, w) => (Ret (fault_verdict msg), mk_rt w (console st))
  | (Interrupted, w) => (Raise KeyboardInterrupt, mk_rt w (console st))
  end.
Proof.
  unfold can_cherry_pick_cleanly.
  unfold try_except at 1. unfold bind at 1.
  rewrite run_git_command_spec. fold (full ["rev-parse"; commit_hash ++ "^"]).
  destruct (spawn _ (repo st)) as [[rc out err|msg|] w]; try reflexivity.
  cbn [andb]. destruct (negb (rc =? 0)%Z); [reflexivity|].
  cbn [stdout]. unfold try_except, bind.
  rewrite run_git_command_spec. cbn [andb repo console].
  destruct (spawn _ w) as [[rc2 out2 err2|msg|] w2]; reflexivity.
Qed.

(** [get_commit_file_changes], path by path. *)
Lemma get_commit_file_changes_spec (commit_hash : string) (st : rt world) :
  let command := ["diff-tree"; "--no-commit-id"; "--name-status"; "-r";
                  commit_hash] in
  get_commit_file_changes spawn repo_path cpe_str commit_hash st =
  match spawn (full command) (repo st) with
  | (Exited rc out err, w) =>
      if negb (rc =? 0)%Z
      then (Raise (SystemExit 1),
            mk_rt w (console st ++ failure_report (full command) err)%list)
      else
        match parse_changes out with
        | Ret changes =>
            (Ret (mk_changes_result changes None), mk_rt w (console st))
        | Raise e =>
            if is_Exception e
            then (Ret (mk_changes_result [] (Some (exn_str cpe_str e))),
                  mk_rt w (console st))
            else (Raise e, mk_rt w (console st))
        end
  | (SpawnFault msg, w) =>
      (Ret (mk_changes_result [] (Some msg)), mk_rt w (console st))
  | (Interrupted, w) => (Raise KeyboardInterrupt, mk_rt w (console st))
  end.
Proof.
  intros command. unfold get_commit_file_changes.
  unfold try_except at 1. unfold bind at 1.
  rewrite run_git_command_spec. fold command. fold (full command).
  destruct (spawn _ (repo st)) as [[rc out err|msg|] w]; try reflexivity.
  cbn [andb]. destruct (negb (rc =? 0)%Z); [reflexivity|].
  cbn [stdout]. destruct (parse_changes out) as [changes|e]; [reflexivity|].
  unfold raise. now destruct (is_Exception e).
Qed.

Lemma merge_tree_verdict_ok (out : string) :
  verdict_ok (merge_tree_verdict out).
Proof.
  unfold verdict_ok, merge_tree_verdict. cbn [conflicts can_apply method].
  split; [|discriminate].
  destruct (scan_conflicts out); [now intros H | reflexivity].
Qed.

Lemma fault_verdict_ok (msg : string) : verdict_ok (fault_verdict msg).
Proof. split; [reflexivity | discriminate]. Qed.

(** C4. Whatever the repository answers, a call of the oracle either
    returns a verdict that satisfies the invariant (conflicting paths
    only when not applicable, method unknown only when not applicable)
    or leaves through [SystemExit] or [KeyboardInterrupt] without a
    verdict; the dict of the [CalledProcessError] handler satisfies the
    invariant as well. *)
Theorem verdict_invariant (commit_hash : string) (st : rt world) :
  match fst (can_cherry_pick_cleanly spawn repo_path cpe_str
                                     commit_hash st) with
  | Ret v => verdict_ok v
  | Raise e => is_Exception e = false
  end
  /\ verdict_ok unknown_verdict.
Proof.
  split; [|split; reflexivity].
  rewrite can_cherry_pick_cleanly_spec.
  destruct (spawn _ (repo st)) as [[rc out err|msg|] w]; cbn [fst];
    [|apply fault_verdict_ok|reflexivity].
  destruct (negb (rc =? 0)%Z); cbn [fst]; [reflexivity|].
  destruct (spawn _ w) as [[rc2 out2 err2|msg|] w2]; cbn [fst];
    [apply merge_tree_verdict_ok|apply fault_verdict_ok|reflexivity].
Qed.

(** No call of the oracle returns a verdict with method [unknown]: the
    handler that would build it waits for an exception that
    [check=False] never lets [subprocess.run] raise. *)
Lemma method_never_unknown (commit_hash : string) (st : rt world)
      (v : verdict) :
  fst (can_cherry_pick_cleanly spawn repo_path cpe_str commit_hash st)
  = Ret v ->
  method v <> Some "unknown".
Proof.
  rewrite can_cherry_pick_cleanly_spec.
  destruct (spawn _ (repo st)) as [[rc out err|msg|] w]; cbn [fst];
    [|intros [= <-]; discriminate|discriminate].
  destruct (negb (rc =? 0)%Z); cbn [fst]; [discriminate|].
  destruct (spawn _ w) as [[rc2 out2 err2|msg|] w2]; cbn [fst];
    intros [= <-]; discriminate.
Qed.

(** [get_commits_since], path by path. *)
Lemma get_commits_since_spec (remote_branch : string) (days : Z)
      (exclude_author : option string) (st : rt world) :
  get_commits_since spawn repo_path since_date remote_branch days
                    exclude_author st =
  match since_date (repo st) days with
  | DateOverflow msg => (Raise (OtherException msg), st)
  | DateText since =>
      let cmd := log_cmd repo_path since remote_branch in
      match spawn cmd (repo st) with
      | (Exited rc out err, w) =>
          if negb (rc =? 0)%Z
          then (Raise (SystemExit 1),
                mk_rt w (console st ++ failure_report cmd err)%list)
          else (Ret (parse_commits exclude_author out), mk_rt w (console st))
      | (SpawnFault msg, w) =>
          (Raise (OtherException msg), mk_rt w (console st))
      | (Interrupted, w) => (Raise KeyboardInterrupt, mk_rt w (console st))
      end
  end.
Proof.
  unfold get_commits_since.
  destruct (since_date (repo st) days) as [since|msg]; [|reflexivity].
  unfold bind. cbn [append]. rewrite run_git_command_spec.
  cbv zeta. unfold log_cmd.
  destruct (spawn _ (repo st)) as [[rc out err|msg|] w]; try reflexivity.
  cbn [andb]. now destruct (negb (rc =? 0)%Z).
Qed.

Lemma parse_commits_blank (exclude_author : option string) (out : string) :
  PyStr.strip out = "" -> parse_commits exclude_author out = [].
Proof. intros H. unfold parse_commits. now rewrite H. Qed.

(** Whatever status [merge-tree] exits with, its output is scanned and
    the verdict carries method [merge-tree]. *)
Lemma merge_tree_status_ignored (commit_hash : string) (st : rt world)
      (out err out2 err2 : string) (rc2 : Z) (w w2 : world) :
  spawn (full ["rev-parse"; commit_hash ++ "^"]) (repo st)
  = (Exited 0 out err, w) ->
  spawn (full ["merge-tree"; PyStr.strip out; "HEAD"; commit_hash]) w
  = (Exited rc2 out2 err2, w2) ->
  can_cherry_pick_cleanly spawn repo_path cpe_str commit_hash st
  = (Ret (merge_tree_verdict out2), mk_rt w2 (console st)).
Proof.
  intros S1 S2. rewrite can_cherry_pick_cleanly_spec, S1. cbn [negb Z.eqb].
  now rewrite S2.
Qed.

(** A non-zero exit of [diff-tree] leaves [get_commit_file_changes]
    through [sys.exit(1)], past its own handler. *)
Lemma diff_tree_nonzero_exits (commit_hash : string) (st : rt world)
      (rc : Z) (out err : string) (w : world) :
  spawn (full ["diff-tree"; "--no-commit-id"; "--name-status"; "-r";
               commit_hash]) (repo st)
  = (Exited rc out err, w) ->
  rc <> 0%Z ->
  fst (get_commit_file_changes spawn repo_path cpe_str commit_hash st)
  = Raise (SystemExit 1).
Proof.
  intros S N. rewrite get_commit_file_changes_spec, S.
  apply Z.eqb_neq in N. now rewrite N.
Qed.

(** An exception raised by a call of the per-commit loop ends the loop:
    the commits after it are not looked at. *)
Lemma display_commits_stops (other_project : string) (c : commit)
      (rest : list commit) (tc sd : bool) (st st' : rt world) (e : exn) :
  display_commit_rich spawn repo_path cpe_str other_project c tc sd st
  = (Raise e, st') ->
  display_commits spawn repo_path cpe_str other_project (c :: rest) tc sd st
  = (Raise e, st').
Proof. intros H. cbn [display_commits]. unfold bind at 1. now rewrite H. Qed.

End GitFacts.

(* ================================================================== *)
(** * CompatibilityOracle: the scan *)
(* ================================================================== *)

Section Scan.

Lemma truthy_nonempty (f : string) : PyStr.truthy f = true <-> f <> "".
Proof. destruct f; cbn; split; intros; congruence. Qed.

Lemma mem_In (x : string) (xs : list string) :
  PyStr.mem x xs = true <-> In x xs.
Proof.
  unfold PyStr.mem. rewrite existsb_exists. split.
  - intros (y & Hy & E). apply String.eqb_eq in E. now subst.
  - intros H. exists x. split; [exact H | apply String.eqb_refl].
Qed.

(** A hunk header is not a file header. *)
Lemma hunk_not_header (line : string) :
  PyStr.startswith line "@@" = true ->
  PyStr.startswith line "+++" = false /\ PyStr.startswith line "---" = false.
Proof.
  unfold PyStr.startswith. destruct line as [|c line]; [discriminate|].
  cbn [String.prefix]. destruct (ascii_dec "@" c) as [<-|]; [|discriminate].
  intros _. split; reflexivity.
Qed.

(** One step of the scan: the paths recorded afterwards are those recorded
    before, plus the current file when it is set, not empty, and the line
    is one that records. *)
Lemma scan_step_conflicts (s : scan_state) (line f : string) :
  In f (sc_conflicts (scan_step s line))
  <-> In f (sc_conflicts s)
      \/ (records_conflict line = true
          /\ current_file s = Some f /\ f <> "").
Proof.
  unfold scan_step, records_conflict.
  destruct (PyStr.startswith line "@@") eqn:H1.
  - cbn [orb]. destruct (current_file s) as [g|]; [|intuition congruence].
    destruct (PyStr.truthy g) eqn:T; cbn [sc_conflicts].
    + apply truthy_nonempty in T. rewrite in_app_iff. cbn [In].
      split; [intros [H|[<-|[]]]; auto|].
      intros [H|(_ & [= <-] & _)]; auto.
    + assert (g = "") by now destruct g. subst g.
      split; [auto|]. intros [H|(_ & [= <-] & N)]; [exact H|now elim N].
  - cbn [orb].
    destruct (PyStr.startswith line "+++" || PyStr.startswith line "---");
      cbn [negb andb].
    + destruct (_ && _); cbn [sc_conflicts]; intuition congruence.
    + destruct (has_marker line); [|intuition congruence].
      destruct (current_file s) as [g|]; [|intuition congruence].
      destruct (PyStr.truthy g) eqn:T; cbn [andb].
      * apply truthy_nonempty in T.
        destruct (PyStr.mem g (sc_conflicts s)) eqn:Mg; cbn [negb sc_conflicts].
        -- apply mem_In in Mg. split; [auto|].
           intros [H|(_ & [= <-] & _)]; auto.
        -- rewrite in_app_iff. cbn [In].
           split; [intros [H|[<-|[]]]; auto|].
           intros [H|(_ & [= <-] & _)]; auto.
      * assert (g = "") by now destruct g. subst g.
        split; [auto|]. intros [H|(_ & [= <-] & N)]; [exact H|now elim N].
Qed.

(** The whole scan: a path is recorded exactly when, at some line that
    records, it is the file named by the latest [+++] header. *)
Lemma scan_fold_conflicts (lines : list string) :
  forall (s : scan_state) (f : string),
    In f (sc_conflicts (fold_left scan_step lines s))
    <-> In f (sc_conflicts s)
        \/ exists before line after,
             lines = (before ++ line :: after)%list
             /\ records_conflict line = true
             /\ current_file (fold_left scan_step before s) = Some f
             /\ f <> "".
Proof.
  induction lines as [|x xs IH]; intros s f; cbn [fold_left].
  - split; [auto|]. intros [H|(b & l & a & E & _)]; [exact H|].
    now destruct b.
  - rewrite IH, scan_step_conflicts. split.
    + intros [[H|H]|(b & l & a & -> & R & C & N)]; [now left| |].
      * right. exists [], x, xs. now split.
      * right. exists (x :: b), l, a. now split.
    + intros [H|(b & l & a & E & R & C & N)]; [now left; left|].
      destruct b as [|y b]; cbn [app] in E; injection E as -> ->.
      * left; right. now split.
      * right. exists b, l, a. now split.
Qed.

(** Without a line that records, nothing is recorded and the verdict is
    applicable. *)
Lemma scan_quiet (out : string) :
  Forall (fun line => records_conflict line = false) (PyStr.split LF out) ->
  merge_tree_verdict out = mk_verdict true [] (Some "merge-tree") None.
Proof.
  intros Q. unfold merge_tree_verdict, scan_conflicts.
  destruct (PyStr.truthy (PyStr.strip out)); [|reflexivity].
  destruct (sc_conflicts _) as [|f fs] eqn:E; [reflexivity|].
  assert (I : In f (sc_conflicts (fold_left scan_step (PyStr.split LF out)
                                            (mk_scan [] None))))
    by (rewrite E; now left).
  apply scan_fold_conflicts in I as [[]|(b & l & a & S & R & _)].
  rewrite S in Q. apply Forall_app in Q as [_ Q].
  inversion Q as [|? ? Hl _]; subst. congruence.
Qed.

End Scan.

(* ================================================================== *)
(** * The operations on concrete transcripts *)
(* ================================================================== *)

(** C1. On a merge result that names [foo] in a file header and then
    opens a hunk, without a conflict marker on any line, the scan records
    [foo] as conflicting and the verdict is not applicable: the branch for
    lines that start with [@@] appends the current file by itself. *)
Theorem scan_records_hunk_without_marker :
  Forall (fun line => has_marker line = false)
         (PyStr.split LF hunk_without_marker)
  /\ merge_tree_verdict hunk_without_marker
     = mk_verdict false ["foo"] (Some "merge-tree") None
  /\ fst (Scripted.cherry_pick_test (merge_tree_prints hunk_without_marker)
                                    "c0ffee")
     = Ret (mk_verdict false ["foo"] (Some "merge-tree") None).
Proof.
  split; [|split]; [|reflexivity|reflexivity].
  repeat constructor.
Qed.

(** C2. When [merge-tree] exits with status 128 and prints nothing, the
    oracle answers applicable, method [merge-tree], no diagnostic; when
    the [merge-tree] process cannot be started it answers with a
    diagnostic but without any method; when [rev-parse] exits with a
    non-zero status there is no verdict, the call leaves through
    [sys.exit(1)]. *)
Theorem merge_failure_verdicts :
  fst (Scripted.cherry_pick_test merge_tree_exits_128 "c0ffee")
  = Ret (mk_verdict true [] (Some "merge-tree") None)
  /\ fst (Scripted.cherry_pick_test merge_tree_cannot_start "c0ffee")
     = Ret (mk_verdict false [] None
                       (Some "[Errno 12] Cannot allocate memory"))
  /\ fst (Scripted.cherry_pick_test rev_parse_exits_128 "c0ffee")
     = Raise (SystemExit 1).
Proof. repeat split. Qed.

(** C3. When [diff-tree] exits with status 128, [get_commit_file_changes]
    returns nothing: it prints the failure and leaves through
    [sys.exit(1)], and the per-commit loop over two commits stops there
    after a single git command, never reaching the second commit. When the
    process cannot be started the handler does return the empty list with
    the message. *)
Theorem diff_tree_failure_aborts :
  Scripted.changes_of diff_tree_exits_128 "c0ffee"
  = (Raise (SystemExit 1),
     mk_rt tt (failure_report
                 ["git"; "-C"; "."; "diff-tree"; "--no-commit-id";
                  "--name-status"; "-r"; "c0ffee"]
                 "fatal: bad object"))
  /\ (let (r, st) :=
        Logging.analysis diff_tree_exits_128
          [mk_commit "c0ffee" "ann" "2025-01-02" "first";
           mk_commit "decade" "bob" "2025-01-01" "second"] in
      r = Raise (SystemExit 1)
      /\ repo st = [["git"; "-C"; "."; "diff-tree"; "--no-commit-id";
                     "--name-status"; "-r"; "c0ffee"]])
  /\ fst (Scripted.changes_of diff_tree_cannot_start "c0ffee")
     = Ret (mk_changes_result
              [] (Some "[Errno 2] No such file or directory: 'git'")).
Proof. repeat split. Qed.

(** The invariant at work on a verdict with a conflict. *)
Example verdict_invariant_conflict :
  fst (Scripted.cherry_pick_test (merge_tree_prints hunk_with_marker)
                                 "c0ffee")
  = Ret (mk_verdict false ["foo"] (Some "merge-tree") None)
  /\ verdict_ok (mk_verdict false ["foo"] (Some "merge-tree") None).
Proof.
  split; [reflexivity|].
  exact (merge_tree_verdict_ok hunk_with_marker).
Qed.



(* ================================================================== *)
(** * More about the string primitives *)
(* ================================================================== *)

Section StringFacts.

Lemma lstrip_fixed (s : string) :
  match s with
  | EmptyString => True
  | String c _ => PyStr.isspace c = false
  end ->
  PyStr.lstrip s = s.
Proof. destruct s as [|c t]; cbn [PyStr.lstrip]; [trivial|]. now intros ->. Qed.

Lemma rstrip_rstrip (s : string) :
  PyStr.rstrip (PyStr.rstrip s) = PyStr.rstrip s.
Proof.
  induction s as [|c t IH]; [reflexivity|].
  cbn [PyStr.rstrip]. destruct (PyStr.rstrip t) as [|x r] eqn:E.
  - destruct (PyStr.isspace c) eqn:S; [reflexivity|].
    cbn [PyStr.rstrip]. now rewrite S.
  - change (PyStr.rstrip (String c (String x r)))
      with (match PyStr.rstrip (String x r) with
            | EmptyString =>
                if PyStr.isspace c then EmptyString else String c EmptyString
            | r' => String c r'
            end).
    now rewrite IH.
Qed.

(** Stripping twice is stripping once. *)
Lemma strip_strip (s : string) : PyStr.strip (PyStr.strip s) = PyStr.strip s.
Proof.
  unfold PyStr.strip at 1.
  rewrite (lstrip_fixed (PyStr.strip s) (strip_head s)).
  unfold PyStr.strip. apply rstrip_rstrip.
Qed.

Lemma no_char_app (x : ascii) (a b : string) :
  no_char x (a ++ b) = no_char x a && no_char x b.
Proof.
  unfold no_char. induction a as [|c a IH]; cbn [append all_chars];
    [reflexivity|]. now rewrite IH, andb_assoc.
Qed.

Lemma no_char_cons (x c : ascii) (a : string) :
  no_char x (String c a) = negb (Ascii.eqb c x) && no_char x a.
Proof. reflexivity. Qed.

(** The pieces of a split do not contain the separator. *)
Lemma split_pieces (sep : ascii) (s : string) :
  Forall (fun piece => no_char sep piece = true) (PyStr.split sep s).
Proof.
  induction s as [|c t IH]; cbn [PyStr.split].
  - now repeat constructor.
  - destruct (Ascii.eqb c sep) eqn:E.
    + constructor; [reflexivity | exact IH].
    + destruct (PyStr.split sep t) as [|h r].
      * repeat constructor. now rewrite no_char_cons, E.
      * inversion IH as [|? ? Hh Hr]; subst.
        constructor; [|exact Hr]. now rewrite no_char_cons, E, Hh.
Qed.

(** A bounded split that did split: the first piece is free of the
    separator and the other pieces are the bounded split of the rest. *)
Lemma splitn_first (sep : ascii) (m : nat) (s h : string)
      (r : list string) :
  PyStr.splitn sep (S m) s = h :: r -> r <> [] ->
  no_char sep h = true
  /\ exists t, s = h ++ String sep t /\ r = PyStr.splitn sep m t.
Proof.
  revert h r; induction s as [|c t IH]; intros h r E N.
  - cbn in E. injection E as <- <-. now elim N.
  - cbn [PyStr.splitn] in E. destruct (Ascii.eqb c sep) eqn:C.
    + injection E as <- <-. split; [reflexivity|].
      exists t. apply Ascii.eqb_eq in C. now subst.
    + destruct (PyStr.splitn sep (S m) t) as [|h' r'] eqn:E'.
      * injection E as <- <-. now elim N.
      * injection E as <- <-.
        destruct (IH h' r' eq_refl N) as (Hh & t' & -> & Hr).
        split; [now rewrite no_char_cons, C, Hh|].
        now exists t'.
Qed.

(** Four pieces out of [split(sep, 3)] are the line cut at its first
    three separators. *)
Lemma splitn_four (sep : ascii) (s p0 p1 p2 p3 : string) :
  PyStr.splitn sep 3 s = [p0; p1; p2; p3] ->
  s = p0 ++ String sep (p1 ++ String sep (p2 ++ String sep p3))
  /\ no_char sep p0 = true /\ no_char sep p1 = true
  /\ no_char sep p2 = true.
Proof.
  intros E.
  destruct (splitn_first _ _ _ _ _ E) as (H0 & t0 & -> & E0);
    [discriminate|].
  symmetry in E0.
  destruct (splitn_first _ _ _ _ _ E0) as (H1 & t1 & -> & E1);
    [discriminate|].
  symmetry in E1.
  destruct (splitn_first _ _ _ _ _ E1) as (H2 & t2 & -> & E2);
    [discriminate|].
  rewrite splitn_zero in E2. injection E2 as ->. now repeat split.
Qed.

End StringFacts.

(* ================================================================== *)
(** * More about the record parser of [get_commits_since] *)
(* ================================================================== *)

Section RecordParsingMore.

Variable exclude_author : option string.

(** What one line contributes, whatever was collected before. *)
Lemma commits_step_acc (commits : list commit) (line : string) :
  commits_step exclude_author commits line
  = (commits ++ commits_step exclude_author [] line)%list.
Proof.
  unfold commits_step.
  destruct (PyStr.truthy (PyStr.strip line)); [|now rewrite app_nil_r].
  destruct (PyStr.splitn BAR 3 line) as [|p0 [|p1 [|p2 [|p3 [|p4 r]]]]];
    try now rewrite app_nil_r.
  destruct (author_excluded exclude_author p1); [now rewrite app_nil_r|].
  reflexivity.
Qed.

Lemma commits_loop_flat_map (lines : list string) (acc : list commit) :
  fold_left (commits_step exclude_author) lines acc
  = (acc ++ flat_map (commits_step exclude_author []) lines)%list.
Proof.
  revert acc; induction lines as [|l lines IH]; intros acc;
    cbn [fold_left flat_map]; [now rewrite app_nil_r|].
  now rewrite IH, (commits_step_acc acc l), <- app_assoc.
Qed.

(** A record appended for a line is that line read back, with the
    delimiter in the subject only, and its author passed the filter. *)
Lemma commits_step_sound (line : string) (c : commit) :
  In c (commits_step exclude_author [] line) ->
  log_line c = line
  /\ no_char BAR (hash c) = true /\ no_char BAR (author c) = true
  /\ no_char BAR (date c) = true
  /\ author_excluded exclude_author (author c) = false.
Proof.
  unfold commits_step.
  destruct (PyStr.truthy (PyStr.strip line)); [|intros []].
  destruct (PyStr.splitn BAR 3 line) as [|p0 [|p1 [|p2 [|p3 [|p4 r]]]]] eqn:E;
    try (intros []).
  destruct (author_excluded exclude_author p1) eqn:X; [intros []|].
  intros [<-|[]]. apply splitn_four in E as (-> & H0 & H1 & H2).
  cbn [hash author date]. now repeat split.
Qed.

(** X1. Every commit that the parser returns was read from one line of
    the stripped output: printing it with the [|] delimiter gives that
    line back, its hash, author and date contain no [|], no field contains
    a newline, and its author is not the excluded one. *)
Theorem parse_commits_sound (out : string) (c : commit) :
  In c (parse_commits exclude_author out) ->
  In (log_line c) (PyStr.split LF (PyStr.strip out))
  /\ one_line_record c
  /\ author_excluded exclude_author (author c) = false.
Proof.
  unfold parse_commits. rewrite commits_loop_flat_map. cbn [app].
  intros H. apply in_flat_map in H as (line & Hl & Hc).
  destruct (commits_step_sound line c Hc) as (E & H0 & H1 & H2 & X).
  subst line. split; [exact Hl|]. split; [|exact X].
  repeat split; trivial.
  pose proof (split_pieces LF (PyStr.strip out)) as P.
  rewrite Forall_forall in P. exact (P _ Hl).
Qed.

End RecordParsingMore.

Lemma filter_flat_map {A B : Type} (keep : B -> bool) (f : A -> list B)
      (l : list A) :
  filter keep (flat_map f l) = flat_map (fun a => filter keep (f a)) l.
Proof.
  induction l as [|a l IH]; cbn [flat_map]; [reflexivity|].
  now rewrite filter_app, IH.
Qed.

(** X2. Passing [exclude_author] to the collector gives the commits of
    the unfiltered call whose author does not contain it, in the same
    order; an empty [exclude_author] filters nothing. *)
Theorem parse_commits_exclude (x out : string) :
  parse_commits (Some x) out
  = filter (fun c => negb (PyStr.truthy x && PyStr.contains x (author c)))
           (parse_commits None out)
  /\ parse_commits (Some "") out = parse_commits None out.
Proof.
  assert (Step : forall y line,
             commits_step (Some y) [] line
             = filter (fun c => negb (PyStr.truthy y
                                      && PyStr.contains y (author c)))
                      (commits_step None [] line)).
  { intros y line. unfold commits_step.
    destruct (PyStr.truthy (PyStr.strip line)); [|reflexivity].
    destruct (PyStr.splitn BAR 3 line) as [|p0 [|p1 [|p2 [|p3 [|p4 r]]]]];
      try reflexivity.
    cbn [author_excluded app filter author].
    now destruct (PyStr.truthy y && PyStr.contains y p1). }
  assert (All : forall y,
             parse_commits (Some y) out
             = filter (fun c => negb (PyStr.truthy y
                                      && PyStr.contains y (author c)))
                      (parse_commits None out)).
  { intros y. unfold parse_commits. rewrite !commits_loop_flat_map.
    cbn [app]. rewrite filter_flat_map.
    apply flat_map_ext. intros line. apply Step. }
  split; [apply All|].
  rewrite All. clear All Step.
  generalize (parse_commits None out) as l.
  induction l as [|c l IH]; simpl; [reflexivity | now f_equal].
Qed.

(* ================================================================== *)
(** * More about the status lines of [get_commit_file_changes] *)
(* ================================================================== *)

Section StatusLines.

(** X3. A status line is cut at its first tab only: everything after that
    tab is the file, further tabs included (both paths of a rename stay in
    one field), and the kind comes from the first character of the code
    before the tab. A line without a tab is passed over. *)
Theorem changes_step_first_tab (changes : list file_change)
        (line : string) :
  (forall code rest,
      PyStr.strip line = code ++ String TAB rest ->
      no_char TAB code = true ->
      exists c code',
        code = String c code'
        /\ changes_step changes line
           = Ret (changes ++ [mk_change rest (change_type c)])%list)
  /\ (no_char TAB (PyStr.strip line) = true ->
      changes_step changes line = Ret changes).
Proof.
  split.
  - intros code rest E N. unfold changes_step.
    pose proof (strip_head line) as H. rewrite E in *.
    destruct code as [|c code'].
    + cbn [append] in H. discriminate H.
    + exists c, code'. split; [reflexivity|].
      cbn [append PyStr.truthy].
      change (String c (code' ++ String TAB rest))
        with (String c code' ++ String TAB rest).
      now rewrite (splitn_field TAB 0 _ rest N), splitn_zero.
  - intros N. unfold changes_step.
    destruct (PyStr.truthy (PyStr.strip line)); [|reflexivity].
    assert (E : PyStr.splitn TAB 1 (PyStr.strip line) = [PyStr.strip line]).
    { generalize dependent (PyStr.strip line). intros s.
      induction s as [|c s IH]; [reflexivity|].
      rewrite no_char_cons. intros H.
      apply andb_true_iff in H as [Hc Hs]. apply negb_true_iff in Hc.
      cbn [PyStr.splitn]. now rewrite Hc, (IH Hs). }
    now rewrite E.
Qed.

End StatusLines.

Lemma changes_step_first_tab_witness :
  let line := "R100" ++ String TAB ("old.txt" ++ String TAB "new.txt") in
  PyStr.strip line = "R100" ++ String TAB ("old.txt" ++ String TAB "new.txt")
  /\ changes_step [] line
     = Ret [mk_change ("old.txt" ++ String TAB "new.txt") "renamed"]
  /\ changes_step [] "no tab here" = Ret [].
Proof.
  intros line. split; [reflexivity|]. split.
  - destruct (proj1 (changes_step_first_tab [] line) "R100"
                    ("old.txt" ++ String TAB "new.txt") eq_refl eq_refl)
      as (c & code' & E & H).
    injection E as <- <-. exact H.
  - exact (proj2 (changes_step_first_tab [] "no tab here") eq_refl).
Defined.

(* ================================================================== *)
(** * More about the scan of the merge-tree output *)
(* ================================================================== *)

Section ScanMore.

Lemma scan_step_current (s : scan_state) (line f : string) :
  current_file (scan_step s line) = Some f ->
  current_file s = Some f
  \/ (PyStr.startswith line "+++" = true /\ line <> "+++ /dev/null"
      /\ f = PyStr.drop 6 line).
Proof.
  unfold scan_step.
  destruct (PyStr.startswith line "@@").
  - destruct (current_file s) as [g|] eqn:C; [|rewrite C; now left].
    destruct (PyStr.truthy g); cbn [current_file]; rewrite ?C; now left.
  - destruct (PyStr.startswith line "+++") eqn:P; cbn [orb andb].
    + destruct (String.eqb_spec line "+++ /dev/null") as [E|N];
        cbn [negb current_file]; [now left|].
      intros [= <-]. right. now repeat split.
    + destruct (PyStr.startswith line "---"); [now left|].
      destruct (has_marker line); [|now left].
      destruct (current_file s) as [g|] eqn:C; [|rewrite C; now left].
      destruct (PyStr.truthy g && negb (PyStr.mem g (sc_conflicts s)));
        cbn [current_file]; rewrite ?C; now left.
Qed.

Lemma scan_fold_current (lines : list string) :
  forall (s : scan_state) (f : string),
    current_file (fold_left scan_step lines s) = Some f ->
    current_file s = Some f \/ from_header lines f.
Proof.
  induction lines as [|x xs IH]; intros s f; cbn [fold_left]; [now left|].
  intros H. destruct (IH _ _ H) as [C|(l & I & P & N & E)].
  - destruct (scan_step_current _ _ _ C) as [C'|(P & N & E)]; [now left|].
    right. exists x. repeat split; trivial. now left.
  - right. exists l. repeat split; trivial. now right.
Qed.

Lemma from_header_app (before after : list string) (f : string) :
  from_header before f -> from_header (before ++ after) f.
Proof.
  intros (l & I & H). exists l. split; [|exact H].
  apply in_or_app. now left.
Qed.

Lemma scan_conflicts_from_header_aux (out f : string) :
  In f (scan_conflicts out) -> from_header (PyStr.split LF out) f.
Proof.
  unfold scan_conflicts.
  destruct (PyStr.truthy (PyStr.strip out)); [|intros []].
  intros H. apply scan_fold_conflicts in H as [[]|(b & l & a & E & _ & C & N)].
  destruct (scan_fold_current _ _ _ C) as [C'|F]; [discriminate C'|].
  rewrite E. now apply from_header_app.
Qed.

(** X4. Every path in [conflicts] is not empty and is what follows the
    first six characters of a [+++] header line of the output, other than
    [+++ /dev/null]. *)
Theorem scan_conflicts_from_header (out f : string) :
  In f (scan_conflicts out) ->
  f <> "" /\ from_header (PyStr.split LF out) f.
Proof.
  unfold scan_conflicts.
  destruct (PyStr.truthy (PyStr.strip out)); [|intros []].
  intros H. apply scan_fold_conflicts in H as [[]|(b & l & a & E & _ & C & N)].
  split; [exact N|].
  destruct (scan_fold_current _ _ _ C) as [C'|F]; [discriminate C'|].
  rewrite E. now apply from_header_app.
Qed.

(** X5. When no line of the output starts with [+++], the scan records
    nothing and the verdict is applicable, conflict markers or not. *)
Theorem scan_without_header_applicable (out : string) :
  Forall (fun line => PyStr.startswith line "+++" = false)
         (PyStr.split LF out) ->
  merge_tree_verdict out = mk_verdict true [] (Some "merge-tree") None.
Proof.
  intros Q. unfold merge_tree_verdict.
  destruct (scan_conflicts out) as [|f fs] eqn:E; [reflexivity|].
  assert (I : In f (scan_conflicts out)) by (rewrite E; now left).
  apply scan_conflicts_from_header_aux in I.
  destruct I as (l & I & P & _). rewrite Forall_forall in Q.
  rewrite (Q _ I) in P. discriminate P.
Qed.

Lemma scan_step_nodup (s : scan_state) (line : string) :
  PyStr.startswith line "@@" = false ->
  NoDup (sc_conflicts s) -> NoDup (sc_conflicts (scan_step s line)).
Proof.
  intros H N. unfold scan_step. rewrite H.
  destruct (PyStr.startswith line "+++" || PyStr.startswith line "---").
  - now destruct (_ && _).
  - destruct (has_marker line); [|exact N].
    destruct (current_file s) as [g|]; [|exact N].
    destruct (PyStr.truthy g); cbn [andb]; [|exact N].
    destruct (PyStr.mem g (sc_conflicts s)) eqn:Mg; cbn [negb sc_conflicts];
      [exact N|].
    apply NoDup_app; [exact N | repeat constructor; intros [] |].
    intros x I [<-|[]]. apply mem_In in I. congruence.
Qed.

(** X6. When no line of the output starts with [@@], no path is recorded
    twice. *)
Theorem scan_conflicts_nodup (out : string) :
  Forall (fun line => PyStr.startswith line "@@" = false)
         (PyStr.split LF out) ->
  NoDup (scan_conflicts out).
Proof.
  intros Q. unfold scan_conflicts.
  destruct (PyStr.truthy (PyStr.strip out)); [|constructor].
  assert (G : forall lines s,
             Forall (fun line => PyStr.startswith line "@@" = false) lines ->
             NoDup (sc_conflicts s) ->
             NoDup (sc_conflicts (fold_left scan_step lines s))).
  { induction lines as [|x xs IH]; intros s F N; cbn [fold_left]; [exact N|].
    inversion F as [|? ? Hx Hxs]; subst.
    apply IH; [exact Hxs|]. now apply scan_step_nodup. }
  apply G; [exact Q | constructor].
Qed.

End ScanMore.

(* ================================================================== *)
(** * More about [extract_pr_url] and the bot filter *)
(* ================================================================== *)

Section UrlAndFilterMore.

Lemma search_sound (s d : string) :
  Regex.search pr_pattern s = Some d ->
  exists pre suf, pr_occurrence s pre d suf.
Proof.
  induction s as [|c t IH]; rewrite search_unfold;
    destruct (Regex.match_here pr_pattern _ "") as [g|] eqn:E.
  - intros [= <-]. apply match_here_occurrence in E as [suf O].
    now exists "", suf.
  - discriminate.
  - intros [= <-]. apply match_here_occurrence in E as [suf O].
    now exists "", suf.
  - intros H. destruct (IH H) as (pre & suf & O).
    exists (String c pre), suf. now apply occurrence_shift.
Qed.

(** X7. The result of [extract_pr_url] is either empty or the pull-request
    address of the given project followed by digits that stand in the
    subject between a [#] and a [)]. *)
Theorem extract_pr_url_shape (subject project : string) :
  extract_pr_url subject project = ""
  \/ exists pre d suf,
       pr_occurrence subject pre d suf
       /\ extract_pr_url subject project
          = "https://github.com/ublue-os/" ++ project ++ "/pull/" ++ d.
Proof.
  unfold extract_pr_url.
  destruct (Regex.search pr_pattern subject) as [d|] eqn:E; [|now left].
  right. destruct (search_sound _ _ E) as (pre & suf & O).
  now exists pre, d, suf.
Qed.

Lemma any_bot_app (ps qs : list string) (c : commit) :
  any_bot (ps ++ qs) c = any_bot ps c || any_bot qs c.
Proof. unfold any_bot. apply existsb_app. Qed.

Lemma filter_filter {A : Type} (f g : A -> bool) (l : list A) :
  filter f (filter g l) = filter (fun a => g a && f a) l.
Proof.
  induction l as [|a l IH]; cbn [filter]; [reflexivity|].
  destruct (g a); cbn [filter andb]; [|exact IH].
  destruct (f a); now rewrite IH.
Qed.

(** X8. Filtering is idempotent, goes through concatenation, and
    filtering with two pattern lists joined is filtering with one and
    then with the other. *)
Theorem filter_commits_compose (ps qs : list string)
        (commits more : list commit) :
  filter_commits ps (filter_commits ps commits) = filter_commits ps commits
  /\ filter_commits ps (commits ++ more)
     = (filter_commits ps commits ++ filter_commits ps more)%list
  /\ filter_commits (ps ++ qs) commits
     = filter_commits ps (filter_commits qs commits).
Proof.
  rewrite !filter_commits_filter. split; [|split].
  - rewrite filter_filter. apply filter_ext. intros c.
    now destruct (any_bot ps c).
  - apply filter_app.
  - rewrite filter_filter. apply filter_ext. intros c.
    rewrite any_bot_app. destruct (any_bot ps c), (any_bot qs c); reflexivity.
Qed.

Lemma substring_trans (a b c : string) :
  substring_of a b -> substring_of b c -> substring_of a c.
Proof.
  intros (p1 & s1 & ->) (p2 & s2 & ->).
  exists (p2 ++ p1), (s1 ++ s2). now rewrite !sapp_assoc.
Qed.

(** X9. The list fixed in [show_status] drops a commit only when its
    author contains the text [[bot]]: a commit whose author does not
    contain it is always kept, and a commit whose author is one of the
    five listed names is always dropped. *)
Theorem filtered_commits_bot_marker (commits : list commit) (c : commit) :
  In c commits ->
  (~ substring_of "[bot]" (author c) -> In c (filtered_commits commits))
  /\ (In (author c) bot_authors -> ~ In c (filtered_commits commits)).
Proof.
  intros I. unfold filtered_commits. rewrite filter_commits_filter.
  rewrite filter_In, negb_true_iff. split.
  - intros N. split; [exact I|].
    destruct (any_bot bot_authors c) eqn:E; [|reflexivity].
    exfalso. apply N. apply any_bot_excluded in E as (p & Hp & S).
    apply (substring_trans _ p); [|exact S].
    unfold bot_authors in Hp. cbn [In] in Hp.
    destruct Hp as [<-|[<-|[<-|[<-|[<-|[]]]]]].
    + now exists "ubot-7274", "".
    + now exists "renovate", "".
    + now exists "github-actions", "".
    + now exists "dependabot", "".
    + now exists "blacksmith-sh", "".
  - intros B [_ E].
    assert (X : any_bot bot_authors c = true).
    { apply any_bot_excluded. exists (author c). split; [exact B|].
      exists "", "". cbn [append]. now rewrite sapp_nil_r. }
    congruence.
Qed.

End UrlAndFilterMore.

Lemma filtered_commits_bot_marker_witness :
  let c := mk_commit "1f2e3d4c" "ann" "2025-01-03" "fix" in
  let b := mk_commit "5a6b7c8d" "renovate[bot]" "2025-01-02" "deps" in
  In c [b; c] /\ ~ substring_of "[bot]" (author c)
  /\ In c (filtered_commits [b; c])
  /\ ~ In b (filtered_commits [b; c]).
Proof.
  intros c b.
  assert (N : ~ substring_of "[bot]" (author c)).
  { intros H. apply contains_spec in H. discriminate H. }
  split; [right; now left|]. split; [exact N|]. split.
  - exact (proj1 (filtered_commits_bot_marker [b; c] c
                    (or_intror (or_introl eq_refl))) N).
  - exact (proj2 (filtered_commits_bot_marker [b; c] b (or_introl eq_refl))
                 (or_intror (or_introl eq_refl))).
Defined.

(* ================================================================== *)
(** * More about the git operations *)
(* ================================================================== *)

Section GitFactsMore.

Variable world : Type.
Variable spawn : list string -> world -> proc_outcome * world.
Variable repo_path : string.
Variable cpe_str : list string -> Z -> string.
Variable since_date : world -> Z -> date_outcome.

Let full (command : list string) : list string :=
  "git" :: "-C" :: repo_path :: command.

(** X10. [run_git_command] runs [git -C <repo_path>] followed by the
    given arguments, once, and nothing else happens to the repository.
    Exit status 0 gives the completed process with that command line, its
    output and its error text; a non-zero status ends the program through
    [sys.exit(1)] under [check=True] and is returned like any other under
    [check=False]; a process that cannot be run passes its exception on.
    So a [CalledProcessError] never leaves it, and with [check=True] it
    returns only results with exit status 0. *)
Theorem run_git_command_outcomes (command : list string) (check : bool)
        (st : rt world) :
  let res := run_git_command spawn repo_path command check st in
  repo (snd res) = snd (spawn (full command) (repo st))
  /\ match fst (spawn (full command) (repo st)) with
     | Exited rc out err =>
         if (rc =? 0)%Z
         then fst res = Ret (mk_completed (full command) 0 out err)
         else if check
              then fst res = Raise (SystemExit 1)
              else fst res = Ret (mk_completed (full command) rc out err)
     | SpawnFault msg => fst res = Raise (OtherException msg)
     | Interrupted => fst res = Raise KeyboardInterrupt
     end.
Proof.
  intros res. subst res. rewrite run_git_command_spec. fold (full command).
  destruct (spawn _ (repo st)) as [[rc out err|msg|] w]; cbn [fst snd];
    try (split; reflexivity).
  destruct check; cbn [andb].
  - destruct (Z.eqb_spec rc 0) as [->|]; cbn [negb fst snd repo];
      split; reflexivity.
  - destruct (Z.eqb_spec rc 0) as [->|]; cbn [fst snd repo];
      split; reflexivity.
Qed.

(** X11. When the date arithmetic overflows, [get_commits_since] passes
    the [OverflowError] on without running git. Otherwise it runs
    [git log] once: exit status 0 gives the list parsed from the whole
    output, a non-zero status ends the program through [sys.exit(1)], and
    a process that cannot be run passes its exception on to the caller. *)
Theorem get_commits_since_outcomes (remote_branch : string) (days : Z)
        (exclude_author : option string) (st : rt world) :
  let res := get_commits_since spawn repo_path since_date remote_branch
                               days exclude_author st in
  match since_date (repo st) days with
  | DateOverflow msg => res = (Raise (OtherException msg), st)
  | DateText since =>
      let cmd := log_cmd repo_path since remote_branch in
      repo (snd res) = snd (spawn cmd (repo st))
      /\ match fst (spawn cmd (repo st)) with
         | Exited rc out _ =>
             if (rc =? 0)%Z
             then fst res = Ret (parse_commits exclude_author out)
             else fst res = Raise (SystemExit 1)
         | SpawnFault msg => fst res = Raise (OtherException msg)
         | Interrupted => fst res = Raise KeyboardInterrupt
         end
  end.
Proof.
  intros res. subst res. rewrite get_commits_since_spec.
  destruct (since_date (repo st) days) as [since|msg]; [|reflexivity].
  cbv zeta.
  destruct (spawn _ (repo st)) as [[rc out err|msg|] w]; cbn [fst snd];
    try (split; reflexivity).
  destruct (Z.eqb_spec rc 0) as [->|]; cbn [negb fst snd repo];
    split; reflexivity.
Qed.

(** X12. Of the verdicts that the oracle returns, the applicable ones are
    exactly those with no conflicting path and method [merge-tree], and a
    verdict carries an error text exactly when it has no method. *)
Theorem verdict_applicable_iff (commit_hash : string) (st : rt world)
        (v : verdict) :
  fst (can_cherry_pick_cleanly spawn repo_path cpe_str commit_hash st)
  = Ret v ->
  (can_apply v = true
   <-> conflicts v = [] /\ method v = Some "merge-tree")
  /\ (error v <> None <-> method v = None).
Proof.
  assert (Scan : forall out,
             let v := merge_tree_verdict out in
             (can_apply v = true
              <-> conflicts v = [] /\ method v = Some "merge-tree")
             /\ (error v <> None <-> method v = None)).
  { intros out. unfold merge_tree_verdict.
    cbn [can_apply conflicts method error].
    destruct (scan_conflicts out); cbn; intuition congruence. }
  assert (Fault : forall msg,
             let v := fault_verdict msg in
             (can_apply v = true
              <-> conflicts v = [] /\ method v = Some "merge-tree")
             /\ (error v <> None <-> method v = None)).
  { intros msg. cbn. intuition congruence. }
  rewrite can_cherry_pick_cleanly_spec.
  destruct (spawn _ (repo st)) as [[rc out err|msg|] w]; cbn [fst];
    [|intros [= <-]; apply Fault|discriminate].
  destruct (negb (rc =? 0)%Z); cbn [fst]; [discriminate|].
  destruct (spawn _ w) as [[rc2 out2 err2|msg|] w2]; cbn [fst];
    [intros [= <-]; apply Scan|intros [= <-]; apply Fault|discriminate].
Qed.

(** [get_commit_diff], path by path. *)
Lemma get_commit_diff_spec (commit_hash : string) (st : rt world) :
  let command := ["show"; "--no-merges"; "--format="; commit_hash] in
  get_commit_diff spawn repo_path cpe_str commit_hash st =
  match spawn (full command) (repo st) with
  | (Exited rc out err, w) =>
      if negb (rc =? 0)%Z
      then (Raise (SystemExit 1),
            mk_rt w (console st ++ failure_report (full command) err)%list)
      else (Ret (PyStr.strip out), mk_rt w (console st))
  | (SpawnFault msg, w) =>
      (Ret ("Error getting diff: " ++ msg), mk_rt w (console st))
  | (Interrupted, w) => (Raise KeyboardInterrupt, mk_rt w (console st))
  end.
Proof.
  intros command. unfold get_commit_diff.
  unfold try_except at 1. unfold bind at 1.
  rewrite run_git_command_spec. fold command. fold (full command).
  destruct (spawn _ (repo st)) as [[rc out err|msg|] w]; try reflexivity.
  cbn [andb]. now destruct (negb (rc =? 0)%Z).
Qed.

(** X13. [get_commit_diff] runs [git show] once. Exit status 0 gives the
    stripped output; a process that cannot be run gives the text
    [Error getting diff: ] followed by the message of the exception; a
    non-zero status ends the program through [sys.exit(1)]. It raises
    nothing that [except Exception] would catch. *)
Theorem get_commit_diff_outcomes (commit_hash : string) (st : rt world) :
  let cmd := full ["show"; "--no-merges"; "--format="; commit_hash] in
  let res := get_commit_diff spawn repo_path cpe_str commit_hash st in
  repo (snd res) = snd (spawn cmd (repo st))
  /\ match fst (spawn cmd (repo st)) with
     | Exited rc out _ =>
         if (rc =? 0)%Z
         then fst res = Ret (PyStr.strip out)
         else fst res = Raise (SystemExit 1)
     | SpawnFault msg => fst res = Ret ("Error getting diff: " ++ msg)
     | Interrupted => fst res = Raise KeyboardInterrupt
     end
  /\ match fst res with
     | Ret _ => True
     | Raise e => is_Exception e = false
     end.
Proof.
  intros cmd res. subst res cmd. rewrite get_commit_diff_spec. fold full.
  destruct (spawn _ (repo st)) as [[rc out err|msg|] w]; cbn [fst snd];
    try (repeat split; reflexivity).
  destruct (Z.eqb_spec rc 0) as [->|]; cbn [negb fst snd repo];
    repeat split; reflexivity.
Qed.

End GitFactsMore.

Lemma verdict_applicable_iff_witness :
  let v := mk_verdict false ["foo"] (Some "merge-tree") None in
  fst (can_cherry_pick_cleanly
         (Scripted.spawn (merge_tree_prints hunk_with_marker)) "."
         Scripted.cpe_str "c0ffee" Scripted.start) = Ret v
  /\ (can_apply v = true
      <-> conflicts v = [] /\ method v = Some "merge-tree")
  /\ (error v <> None <-> method v = None).
Proof.
  intros v. split; [reflexivity|].
  exact (verdict_applicable_iff Scripted.world
           (Scripted.spawn (merge_tree_prints hunk_with_marker)) "."
           Scripted.cpe_str "c0ffee" Scripted.start v eq_refl).
Defined.

(* ================================================================== *)
(** * Remotes, conflict files and the tool's fields *)
(* ================================================================== *)

Section RemoteFacts.

Variable world : Type.
Variable spawn : list string -> world -> proc_outcome * world.
Variable repo_path : string.
Variable render : string -> pyres string.

Let full (command : list string) : list string :=
  "git" :: "-C" :: repo_path :: command.

(** [has_remote], path by path. *)
Lemma has_remote_spec (remote_name : string) (st : rt world) :
  has_remote spawn repo_path remote_name st =
  match spawn (full ["remote"]) (repo st) with
  | (Exited rc out err, w) =>
      if negb (rc =? 0)%Z
      then (Ret false,
            mk_rt w (console st
                     ++ failure_report (full ["remote"]) err)%list)
      else (Ret (PyStr.mem remote_name (PyStr.split LF out)),
            mk_rt w (console st))
  | (_, w) => (Ret false, mk_rt w (console st))
  end.
Proof.
  unfold has_remote, try_except, bind.
  rewrite run_git_command_spec. fold (full ["remote"]).
  destruct (spawn _ (repo st)) as [[rc out err|msg|] w]; try reflexivity.
  cbn [andb]. now destruct (negb (rc =? 0)%Z).
Qed.

(** X14. [has_remote] always returns a boolean, whatever happens to the
    [git remote] call (a failed call, a process that cannot be run and an
    interrupt all give [False]); it returns [True] exactly when the call
    exits with status 0 and the name is, as a whole, one of the lines of
    its output. *)
Theorem has_remote_total (remote_name : string) (st : rt world) :
  exists b st',
    has_remote spawn repo_path remote_name st = (Ret b, st')
    /\ (b = true <->
        exists out err w,
          spawn (full ["remote"]) (repo st) = (Exited 0 out err, w)
          /\ In remote_name (PyStr.split LF out)).
Proof.
  rewrite has_remote_spec.
  destruct (spawn _ (repo st)) as [[rc out err|msg|] w].
  - destruct (Z.eqb_spec rc 0) as [->|N]; cbn [negb].
    + eexists _, _. split; [reflexivity|]. rewrite mem_In. split.
      * intros I. now exists out, err, w.
      * now intros (o & e & w' & [= <- _ _] & I).
    + eexists _, _. split; [reflexivity|]. split; [discriminate|].
      intros (o & e & w' & [= E _ _ _] & _). now elim N.
  - eexists _, _. split; [reflexivity|]. split; [discriminate|].
    now intros (o & e & w' & E & _).
  - eexists _, _. split; [reflexivity|]. split; [discriminate|].
    now intros (o & e & w' & E & _).
Qed.

(** [stripped_lines] keeps only what is left of non-blank lines. *)
Lemma stripped_lines_clean (text : string) :
  Forall (fun f => f <> "" /\ PyStr.strip f = f) (stripped_lines text).
Proof.
  unfold stripped_lines. apply Forall_map, Forall_forall.
  intros f I. apply filter_In in I as [_ T]. split.
  - intros E. now rewrite E in T.
  - apply strip_strip.
Qed.

(** X15. [get_conflict_files] always returns a list; its entries are not
    empty and carry no blank at either end; and whenever the [git diff]
    call does not exit with status 0 the list is empty. *)
Theorem get_conflict_files_total (st : rt world) :
  exists fs st',
    get_conflict_files spawn repo_path st = (Ret fs, st')
    /\ Forall (fun f => f <> "" /\ PyStr.strip f = f) fs
    /\ ((forall out err w,
            spawn (full ["diff"; "--name-only"; "--diff-filter=U"])
                  (repo st) <> (Exited 0 out err, w)) ->
        fs = []).
Proof.
  unfold get_conflict_files, try_except, bind.
  rewrite run_git_command_spec.
  fold (full ["diff"; "--name-only"; "--diff-filter=U"]).
  destruct (spawn _ (repo st)) as [[rc out err|msg|] w].
  - cbn [andb]. destruct (Z.eqb_spec rc 0) as [->|N]; cbn [negb].
    + eexists _, _. split; [reflexivity|]. cbn [stdout].
      split; [apply stripped_lines_clean|].
      intros H. now elim (H out err w).
    + eexists _, _. split; [reflexivity|]. now split.
  - eexists _, _. split; [reflexivity|]. now split.
  - eexists _, _. split; [reflexivity|]. now split.
Qed.

(** X16. When [get_current_branch] returns, [git branch --show-current]
    exited with status 0 and the result is its output without the blanks
    at both ends. *)
Theorem get_current_branch_stripped (st st' : rt world) (b : string) :
  get_current_branch spawn repo_path st = (Ret b, st') ->
  PyStr.strip b = b
  /\ exists out err,
       spawn (full ["branch"; "--show-current"]) (repo st)
       = (Exited 0 out err, repo st')
       /\ b = PyStr.strip out.
Proof.
  unfold get_current_branch, bind. rewrite run_git_command_spec.
  fold (full ["branch"; "--show-current"]).
  destruct (spawn _ (repo st)) as [[rc out err|msg|] w]; try discriminate.
  cbn [andb]. destruct (Z.eqb_spec rc 0) as [->|N]; cbn [negb];
    [|discriminate].
  unfold ret. cbn [stdout]. intros [= <- <-]. split; [apply strip_strip|].
  now exists out, err.
Qed.

End RemoteFacts.

Section ToolFacts.

(** X17. Whatever name the tool is created with, the other project is
    bluefin or aurora and differs from the tool's own (lower-cased)
    project, it is bluefin exactly when the own project is aurora, and the
    remote URL is the GitHub address of that other project. *)
Theorem tool_init_other (our : string) :
  let t := tool_init our in
  our_project t = lower our
  /\ other_project t <> our_project t
  /\ (other_project t = "bluefin" <-> our_project t = "aurora")
  /\ (other_project t = "aurora" <-> our_project t <> "aurora")
  /\ remote_url t
     = "https://github.com/ublue-os/" ++ other_project t ++ ".git".
Proof.
  unfold tool_init. cbn [our_project other_project remote_url].
  destruct (String.eqb_spec (lower our) "aurora") as [E|N].
  - rewrite E. cbn. intuition discriminate.
  - cbn. intuition (try discriminate; congruence).
Qed.

Variable script : list string -> proc_outcome.
Variable render : string -> pyres string.
Variable our : string.

Let t : CherryPickerTool := tool_init our.
Let run : pyres unit * rt Logging.world :=
  setup_remote (Logging.spawn script) "." render t Logging.start.

Lemma setup_remote_unfold (st : rt Logging.world) :
  setup_remote (Logging.spawn script) "." render t st =
  match has_remote (Logging.spawn script) "." (other_project t) st with
  | (Ret present, st1) =>
      match (if negb present
             then add_remote (Logging.spawn script) "." render
                             (other_project t) (remote_url t)
             else ret tt) st1 with
      | (Ret _, st2) =>
          fetch_remote (Logging.spawn script) "." (other_project t) st2
      | (Raise e, st2) => (Raise e, st2)
      end
  | (Raise e, st1) => (Raise e, st1)
  end.
Proof. reflexivity. Qed.

(** The listing always answers and adds its command line to the log. *)
Lemma has_remote_logged (st : rt Logging.world) :
  exists c,
    has_remote (Logging.spawn script) "." (other_project t) st
    = (Ret (remote_listed script t), mk_rt (repo st ++ [remote_cmd])%list c).
Proof.
  rewrite has_remote_spec. unfold Logging.spawn, remote_listed.
  fold remote_cmd.
  destruct (script remote_cmd) as [rc out err|msg|]; [|now eexists..].
  destruct rc; cbn [Z.eqb negb]; now eexists.
Qed.

(** The fetch adds its command line to the log, whatever its outcome. *)
Lemma fetch_remote_logged (st : rt Logging.world) :
  repo (snd (fetch_remote (Logging.spawn script) "." (other_project t) st))
  = (repo st ++ [fetch_cmd t])%list.
Proof.
  unfold fetch_remote, bind. rewrite run_git_command_spec.
  unfold Logging.spawn. fold (fetch_cmd t).
  destruct (script (fetch_cmd t)) as [rc out err|msg|]; try reflexivity.
  cbn [andb]. now destruct (negb (rc =? 0)%Z).
Qed.

(** The addition, once its notice is rendered, adds its command line to
    the log and returns exactly when the command exits with status 0. *)
Lemma add_remote_logged (st : rt Logging.world) (text : string) :
  render (add_markup t) = Ret text ->
  exists r c,
    add_remote (Logging.spawn script) "." render (other_project t)
               (remote_url t) st
    = (r, mk_rt (repo st ++ [add_cmd t])%list c)
    /\ (if exits_zero script (add_cmd t)
        then r = Ret tt else exists e, r = Raise e).
Proof.
  intros R. unfold add_remote, console_print. fold (add_markup t).
  rewrite R. unfold bind at 1 2, print. rewrite run_git_command_spec.
  unfold Logging.spawn, exits_zero. cbn [repo]. fold (add_cmd t).
  destruct (script (add_cmd t)) as [rc out err|msg|].
  - cbn [andb]. destruct rc; cbn [Z.eqb negb]; eexists _, _;
      (split; [reflexivity|]); eauto.
  - eexists _, _. split; [reflexivity|]. eauto.
  - eexists _, _. split; [reflexivity|]. eauto.
Qed.

(** X18. [setup_remote] first lists the remotes. When the other project
    is listed it only fetches it; otherwise it prints the notice and adds
    the remote, and fetches only if the addition exited with status 0;
    when the notice cannot be rendered nothing is added or fetched. No
    other git command is run. *)
Theorem setup_remote_commands :
  (remote_listed script t = true -> repo (snd run) = [remote_cmd; fetch_cmd t])
  /\ (remote_listed script t = false ->
      match render (add_markup t) with
      | Ret _ =>
          repo (snd run)
          = remote_cmd :: add_cmd t
              :: (if exits_zero script (add_cmd t) then [fetch_cmd t] else [])
      | Raise e => repo (snd run) = [remote_cmd] /\ fst run = Raise e
      end).
Proof.
  subst run. rewrite setup_remote_unfold.
  destruct (has_remote_logged Logging.start) as [c ->].
  cbn [repo Logging.start app]. split; intros L; rewrite L; cbn [negb].
  - unfold ret. now rewrite fetch_remote_logged.
  - destruct (render (add_markup t)) as [text|e] eqn:R.
    + destruct (add_remote_logged (mk_rt [remote_cmd] c) text R)
        as (r & c' & -> & H).
      cbn [repo app] in *.
      destruct (exits_zero script (add_cmd t)).
      * subst r. now rewrite fetch_remote_logged.
      * now destruct H as [e ->].
    + unfold add_remote, console_print. fold (add_markup t).
      rewrite R. split; reflexivity.
Qed.

End ToolFacts.

Section OracleCommands.

Variable script : list string -> proc_outcome.
Variable commit_hash : string.

Let rev_cmd : list string :=
  ["git"; "-C"; "."; "rev-parse"; commit_hash ++ "^"].

(** X19. The oracle runs [git rev-parse <hash>^] and then, only if that
    exited with status 0, [git merge-tree <parent> HEAD <hash>] with the
    stripped output of the first call as parent; it runs no other
    command. *)
Theorem oracle_commands :
  let cmds :=
    repo (snd (can_cherry_pick_cleanly (Logging.spawn script) "."
                 Scripted.cpe_str commit_hash Logging.start)) in
  if exits_zero script rev_cmd
  then exists out err,
         script rev_cmd = Exited 0 out err
         /\ cmds = [rev_cmd;
                    ["git"; "-C"; "."; "merge-tree"; PyStr.strip out;
                     "HEAD"; commit_hash]]
  else cmds = [rev_cmd].
Proof.
  intros cmds. subst cmds. rewrite can_cherry_pick_cleanly_spec.
  unfold Logging.spawn, exits_zero. cbn [repo Logging.start app].
  fold rev_cmd.
  destruct (script rev_cmd) as [rc out err|msg|]; try reflexivity.
  destruct rc; cbn [Z.eqb negb]; try reflexivity.
  exists out, err. split; [reflexivity|].
  now destruct (script _) as [rc2 out2 err2|msg|].
Qed.

End OracleCommands.

(* ================================================================== *)
(** * Where the file changes come from *)
(* ================================================================== *)

Section ChangesSound.

Lemma changes_step_inv (changes changes' : list file_change)
      (line : string) :
  changes_step changes line = Ret changes' ->
  changes' = changes
  \/ exists c code' rest,
       PyStr.strip line = String c code' ++ String TAB rest
       /\ no_char TAB (String c code') = true
       /\ changes' = (changes ++ [mk_change rest (change_type c)])%list.
Proof.
  unfold changes_step.
  destruct (PyStr.truthy (PyStr.strip line)); [|intros [= <-]; now left].
  destruct (PyStr.splitn TAB 1 (PyStr.strip line))
    as [|st [|filepath [|x r]]] eqn:E;
    try (intros [= <-]; now left).
  apply splitn_first in E as (N & t & S & R); [|discriminate].
  rewrite splitn_zero in R. injection R as ->.
  destruct st as [|c code']; cbn [first_char]; [discriminate|].
  intros [= <-]. right. now exists c, code', t.
Qed.

Lemma changes_loop_sound (lines : list string) :
  forall acc changes ch,
    changes_loop acc lines = Ret changes ->
    In ch changes ->
    In ch acc
    \/ exists line c code',
         In line lines
         /\ PyStr.strip line = String c code' ++ String TAB (file ch)
         /\ no_char TAB (String c code') = true
         /\ status ch = change_type c.
Proof.
  induction lines as [|line lines IH]; intros acc changes ch;
    cbn [changes_loop].
  - intros [= <-] I. now left.
  - destruct (changes_step acc line) as [acc'|e] eqn:S; [|discriminate].
    intros L I. destruct (IH _ _ _ L I) as [A|(l & c & k & Il & H)].
    + apply changes_step_inv in S as [->|(c & k & rest & E & N & ->)];
        [now left|].
      apply in_app_or in A as [A|[<-|[]]]; [now left|].
      right. exists line, c, k. cbn [file status]. repeat split; trivial.
      now left.
    + right. exists l, c, k. split; [now right | exact H].
Qed.

(** X20. Every file change that [get_commit_file_changes] reports was
    read from one line of the stripped [diff-tree] output: the line,
    stripped, is a status code without a tab, a tab, and then exactly the
    reported file; the reported kind is the kind of the code's first
    character. *)
Theorem parse_changes_sound (out : string) (changes : list file_change)
        (ch : file_change) :
  parse_changes out = Ret changes ->
  In ch changes ->
  exists line c code',
    In line (PyStr.split LF (PyStr.strip out))
    /\ PyStr.strip line = String c code' ++ String TAB (file ch)
    /\ no_char TAB (String c code') = true
    /\ status ch = change_type c.
Proof.
  intros P I. destruct (changes_loop_sound _ _ _ _ P I) as [[]|H]. exact H.
Qed.

End ChangesSound.

(* ================================================================== *)
(** * The extra statements on concrete inputs *)
(* ================================================================== *)

Lemma parse_commits_sound_witness :
  let out := transcript ["1f2e3d4c|ann|2025-01-02|fix a|b"; "no bars"] in
  let c := mk_commit "1f2e3d4c" "ann" "2025-01-02" "fix a|b" in
  In c (parse_commits None out)
  /\ In (log_line c) (PyStr.split LF (PyStr.strip out))
  /\ one_line_record c.
Proof.
  intros out c.
  assert (I : In c (parse_commits None out)) by (left; reflexivity).
  destruct (parse_commits_sound None out c I) as (L & R & _).
  now repeat split.
Defined.

Lemma parse_changes_sound_witness :
  let out := transcript ["M" ++ String TAB "docs/a.md"; ""] in
  let ch := mk_change "docs/a.md" "modified" in
  parse_changes out = Ret [ch] /\ In ch [ch]
  /\ exists line c code',
       In line (PyStr.split LF (PyStr.strip out))
       /\ PyStr.strip line = String c code' ++ String TAB (file ch)
       /\ no_char TAB (String c code') = true
       /\ status ch = change_type c.
Proof.
  intros out ch.
  assert (P : parse_changes out = Ret [ch]) by reflexivity.
  assert (I : In ch [ch]) by now left.
  split; [exact P|]. split; [exact I|].
  exact (parse_changes_sound out [ch] ch P I).
Defined.

Lemma scan_conflicts_from_header_witness :
  In "foo" (scan_conflicts hunk_with_marker)
  /\ "foo" <> ""
  /\ from_header (PyStr.split LF hunk_with_marker) "foo".
Proof.
  assert (I : In "foo" (scan_conflicts hunk_with_marker))
    by (left; reflexivity).
  split; [exact I|]. exact (scan_conflicts_from_header _ _ I).
Defined.

Lemma scan_without_header_applicable_witness :
  let out := transcript ["changed in both"; "@@ -1 +1,5 @@";
                         "+<<<<<<< .our"; "+a"; "+======="; "+b";
                         "+>>>>>>> .their"] in
  Forall (fun line => PyStr.startswith line "+++" = false)
         (PyStr.split LF out)
  /\ merge_tree_verdict out = mk_verdict true [] (Some "merge-tree") None.
Proof.
  intros out.
  assert (Q : Forall (fun line => PyStr.startswith line "+++" = false)
                     (PyStr.split LF out))
    by (repeat constructor).
  split; [exact Q|]. exact (scan_without_header_applicable out Q).
Defined.

Lemma scan_conflicts_nodup_witness :
  Forall (fun line => PyStr.startswith line "@@" = false)
         (PyStr.split LF hunk_with_marker)
  /\ NoDup (scan_conflicts hunk_with_marker).
Proof.
  assert (Q : Forall (fun line => PyStr.startswith line "@@" = false)
                     (PyStr.split LF hunk_with_marker))
    by (repeat constructor).
  split; [exact Q|]. exact (scan_conflicts_nodup _ Q).
Defined.

Lemma get_current_branch_stripped_witness :
  let spawn := Scripted.spawn
                 (fun _ => Exited 0 (transcript ["  main"; ""]) "") in
  get_current_branch spawn "." Scripted.start = (Ret "main", Scripted.start)
  /\ PyStr.strip "main" = "main".
Proof.
  intros spawn.
  assert (E : get_current_branch spawn "." Scripted.start
              = (Ret "main", Scripted.start)) by reflexivity.
  split; [exact E|].
  exact (proj1 (get_current_branch_stripped Scripted.world spawn "."
                  Scripted.start Scripted.start "main" E)).
Defined.

Lemma setup_remote_commands_witness :
  let plain := fun markup : string => Ret markup in
  let t := tool_init "Aurora" in
  let trace := fun names =>
    repo (snd (setup_remote (Logging.spawn (remotes_are names)) "." plain t
                            Logging.start)) in
  other_project t = "bluefin"
  /\ remote_listed (remotes_are ["origin"; "bluefin"]) t = true
  /\ trace ["origin"; "bluefin"] = [remote_cmd; fetch_cmd t]
  /\ remote_listed (remotes_are ["origin"; "bluefin-old"]) t = false
  /\ trace ["origin"; "bluefin-old"] = [remote_cmd; add_cmd t; fetch_cmd t].
Proof.
  intros plain t trace.
  split; [reflexivity|]. split; [reflexivity|]. split; [|split].
  - exact (proj1 (setup_remote_commands (remotes_are ["origin"; "bluefin"])
                    plain "Aurora") eq_refl).
  - reflexivity.
  - exact (proj2 (setup_remote_commands
                    (remotes_are ["origin"; "bluefin-old"]) plain "Aurora")
                 eq_refl).
Defined.

(* ================================================================== *)
(** * Counting, printing and the texts of the report *)
(* ================================================================== *)

Section Counting.

Variable patterns : list string.

(** X21. The filter never returns more commits than it was given, and it
    returns as many exactly when no commit is excluded. *)
Theorem filter_commits_length (commits : list commit) :
  List.length (filter_commits patterns commits) <= List.length commits
  /\ (List.length (filter_commits patterns commits) = List.length commits
      <-> forall c, In c commits -> ~ excluded patterns c).
Proof.
  rewrite filter_commits_filter.
  induction commits as [|c commits [Le Eq]]; cbn [filter List.length].
  - split; [lia|]. split; [intros _ c []|reflexivity].
  - destruct (any_bot patterns c) eqn:E; cbn [negb List.length].
    + split; [lia|]. split; [lia|].
      intros H. exfalso. apply (H c); [now left|].
      now apply any_bot_excluded.
    + split; [lia|]. split.
      * intros L c' [<-|I].
        -- intros X. apply any_bot_excluded in X. congruence.
        -- apply Eq; [lia | exact I].
      * intros H. f_equal. apply Eq. intros c' I. apply H. now right.
Qed.

End Counting.

Section Printing.

Variable world : Type.
Variable spawn : list string -> world -> proc_outcome * world.
Variable repo_path : string.

(** X22. [run_git_command] prints nothing when it returns or passes an
    exception on; when it ends the program it has printed two lines after
    what was there before: the failed command line and the captured
    standard error of the process. *)
Theorem run_git_command_console (command : list string) (check : bool)
        (st : rt world) :
  let full := "git" :: "-C" :: repo_path :: command in
  let res := run_git_command spawn repo_path command check st in
  match fst res with
  | Raise (SystemExit _) =>
      exists rc out err w,
        spawn full (repo st) = (Exited rc out err, w) /\ rc <> 0%Z
        /\ console (snd res)
           = (console st
              ++ [("Git command failed: " ++ PyStr.join " " full)%string;
                  ("Error: " ++ err)%string])%list
  | _ => console (snd res) = console st
  end.
Proof.
  intros full res. subst res. rewrite run_git_command_spec. fold full.
  destruct (spawn full (repo st)) as [[rc out err|msg|] w] eqn:S;
    cbn [fst snd console]; trivial.
  destruct check; cbn [andb]; [|reflexivity].
  destruct (Z.eqb_spec rc 0) as [->|N]; cbn [negb fst snd console];
    [reflexivity|].
  now exists rc, out, err, w.
Qed.

End Printing.

Section ReportTexts.

Lemma take_length (n : nat) (s : string) :
  String.length (take n s) = Nat.min n (String.length s).
Proof.
  revert s; induction n as [|n IH]; intros [|c s]; cbn [take String.length];
    try reflexivity.
  now rewrite IH.
Qed.

Lemma take_all (n : nat) (s : string) :
  String.length s <= n -> take n s = s.
Proof.
  revert s; induction n as [|n IH]; intros [|c s]; cbn [take String.length];
    try reflexivity; intros H; [lia|].
  f_equal. apply IH. lia.
Qed.

Lemma string_length_app (a b : string) :
  String.length (a ++ b) = String.length a + String.length b.
Proof. induction a as [|x a IH]; cbn; [reflexivity | now rewrite IH]. Qed.

(** X23. The subject shown in a panel title is the subject itself when it
    has at most 60 characters, and otherwise its first 60 characters
    followed by three dots; it is never longer than 63 characters. *)
Theorem shown_subject_bounded (subject : string) :
  String.length (shown_subject subject) <= 63
  /\ (String.length subject <= 60 -> shown_subject subject = subject)
  /\ (60 < String.length subject ->
      shown_subject subject = take 60 subject ++ "..."
      /\ String.length (shown_subject subject) = 63).
Proof.
  unfold shown_subject.
  destruct (Nat.ltb_spec 60 (String.length subject)) as [L|L].
  - rewrite string_length_app, take_length. cbn [String.length].
    split; [lia|]. split; [lia|]. intros _. split; [reflexivity|lia].
  - rewrite sapp_nil_r, (take_all _ _ L). split; [lia|].
    split; [reflexivity|lia].
Qed.

(** X24. The file list of a panel shows the first five changes in their
    order, one line each, and, only when there are more than five, one
    further line that gives the number of changes left out; it has at
    most six lines. *)
Theorem file_details_bounded (changes : list file_change) :
  let n := List.length changes in
  List.length (file_details changes) <= 6
  /\ firstn (Nat.min n 5) (file_details changes)
     = map file_detail (firstn 5 changes)
  /\ (n <= 5 -> file_details changes = map file_detail changes)
  /\ (5 < n ->
      file_details changes
      = (map file_detail (firstn 5 changes)
         ++ [("[dim]... and " ++ str_of_nat (n - 5)
              ++ " more[/dim]")%string])%list).
Proof.
  intros n. unfold file_details. fold n.
  assert (Lm : List.length (map file_detail (firstn 5 changes))
               = Nat.min n 5).
  { rewrite length_map, length_firstn. subst n. lia. }
  destruct (Nat.ltb_spec 5 n) as [L|L].
  - repeat split; try lia.
    + rewrite length_app, Lm. cbn [List.length]. lia.
    + rewrite <- Lm. now rewrite firstn_app, Nat.sub_diag, firstn_all,
        firstn_O, app_nil_r.
  - rewrite app_nil_r. repeat split; try lia.
    + rewrite <- Lm. apply firstn_all.
    + intros _. now rewrite firstn_all2 by (subst n; lia).
Qed.

End ReportTexts.

Lemma shown_subject_bounded_witness :
  let long := "feat: a subject line that goes on for rather more than sixty characters"
  in
  60 < String.length long
  /\ shown_subject long
     = "feat: a subject line that goes on for rather more than sixty..."
  /\ shown_subject "fix: typo" = "fix: typo".
Proof.
  intros long.
  assert (L : 60 < String.length long) by (cbn; lia).
  split; [exact L|]. split.
  - exact (proj1 (proj2 (proj2 (shown_subject_bounded long)) L)).
  - apply (proj1 (proj2 (shown_subject_bounded "fix: typo"))). cbn. lia.
Defined.

Lemma file_details_bounded_witness :
  let seven := map (fun f => mk_change f "added")
                   ["a"; "b"; "c"; "d"; "e"; "f"; "g"] in
  5 < List.length seven
  /\ file_details seven
     = (map file_detail (firstn 5 seven)
        ++ ["[dim]... and 2 more[/dim]"])%list
  /\ file_details [mk_change "a" "deleted"]
     = ["[red]deleted[/red]: [dim]a[/dim]"].
Proof.
  intros seven.
  assert (L : 5 < List.length seven) by (cbn; lia).
  split; [exact L|]. split.
  - exact (proj2 (proj2 (proj2 (file_details_bounded seven))) L).
  - apply (proj1 (proj2 (proj2 (file_details_bounded
                                  [mk_change "a" "deleted"])))).
    cbn. lia.
Defined.

(* ================================================================== *)
(** * CommitWindowCollector: whole outputs *)
(* ================================================================== *)

Section WholeOutput.

Lemma no_char_lstrip (x : ascii) (s : string) :
  no_char x s = true -> no_char x (PyStr.lstrip s) = true.
Proof.
  induction s as [|c t IH]; cbn [PyStr.lstrip]; [trivial|].
  destruct (PyStr.isspace c); [|trivial].
  rewrite no_char_cons. intros H. apply andb_true_iff in H as [_ H]. auto.
Qed.

Lemma no_char_rstrip (x : ascii) (s : string) :
  no_char x s = true -> no_char x (PyStr.rstrip s) = true.
Proof.
  induction s as [|c t IH]; cbn [PyStr.rstrip]; [trivial|].
  rewrite no_char_cons. intros H. apply andb_true_iff in H as [Hc Ht].
  specialize (IH Ht). destruct (PyStr.rstrip t) as [|y r].
  - destruct (PyStr.isspace c); [reflexivity|].
    now rewrite no_char_cons, Hc.
  - now rewrite no_char_cons, Hc, IH.
Qed.

(** Leading blanks stop at the first character that is not a blank. *)
Lemma lstrip_field (h rest : string) (c : ascii) :
  PyStr.isspace c = false ->
  PyStr.lstrip (h ++ String c rest) = PyStr.lstrip h ++ String c rest.
Proof.
  intros Hc. induction h as [|x h IH]; cbn [append PyStr.lstrip].
  - now rewrite Hc.
  - now destruct (PyStr.isspace x).
Qed.

(** Trailing blanks stop at the last character that is not a blank. *)
Lemma rstrip_field (pre s : string) (c : ascii) :
  PyStr.isspace c = false ->
  PyStr.rstrip (pre ++ String c s) = pre ++ String c (PyStr.rstrip s).
Proof.
  intros Hc.
  assert (E : PyStr.rstrip (String c s) = String c (PyStr.rstrip s)).
  { cbn [PyStr.rstrip]. rewrite Hc. now destruct (PyStr.rstrip s). }
  induction pre as [|x pre IH]; cbn [append]; [exact E|].
  cbn [PyStr.rstrip]. rewrite IH.
  now destruct pre.
Qed.

Lemma lstrip_log_line (r : commit) :
  PyStr.lstrip (log_line r) = log_line (lstrip_hash r).
Proof. unfold log_line. cbn [append hash lstrip_hash]. now apply lstrip_field. Qed.

(** A log line seen from its last delimiter. *)
Lemma log_line_last (r : commit) :
  log_line r
  = (hash r ++ "|" ++ author r ++ "|" ++ date r) ++ String "|" (subject r).
Proof. unfold log_line. now rewrite !sapp_assoc. Qed.

Lemma rstrip_log_line (r : commit) :
  PyStr.rstrip (log_line r) = log_line (rstrip_subject r).
Proof.
  rewrite !log_line_last. cbn [hash author date subject rstrip_subject].
  now apply rstrip_field.
Qed.

(** The text after the first line of a joined list does not depend on
    that line. *)
Lemma join_head (sep : string) (ls : list string) :
  exists tail, forall l, String.concat sep (l :: ls) = l ++ tail.
Proof.
  destruct ls as [|y ys].
  - exists "". intros l. cbn. now rewrite sapp_nil_r.
  - exists (sep ++ String.concat sep (y :: ys)). intros l. apply join_cons.
Qed.

(** The text before the last line of a joined list does not depend on
    that line. *)
Lemma join_last (sep : string) (init : list string) :
  exists head, forall l, String.concat sep (init ++ [l]) = head ++ l.
Proof.
  induction init as [|x xs [head H]].
  - now exists "".
  - exists (x ++ sep ++ head). intros l.
    change ((x :: xs) ++ [l])%list with (x :: (xs ++ [l]))%list.
    destruct (xs ++ [l])%list as [|y r] eqn:E.
    + now destruct xs.
    + rewrite join_cons, <- E, H. now rewrite !sapp_assoc.
Qed.

Lemma on_last_snoc {A : Type} (f : A -> A) (init : list A) (z : A) :
  on_last f (init ++ [z]) = (init ++ [f z])%list.
Proof.
  induction init as [|x xs IH]; [reflexivity|].
  change ((x :: xs) ++ [z])%list with (x :: (xs ++ [z]))%list.
  cbn [on_last]. rewrite IH.
  destruct xs; reflexivity.
Qed.

(** Stripping a whole output of log lines strips the first hash on the
    left and the last subject on the right, and nothing else. *)
Lemma strip_log_output (rs : list commit) :
  rs <> [] ->
  PyStr.strip (transcript (map log_line rs))
  = transcript (map log_line (trim_ends rs)).
Proof.
  intros N. unfold PyStr.strip, transcript, PyStr.join, trim_ends.
  destruct rs as [|r rest]; [now elim N|]. clear N.
  assert (L : PyStr.lstrip (String.concat (String LF "")
                                          (map log_line (r :: rest)))
              = String.concat (String LF "")
                              (map log_line (lstrip_hash r :: rest))).
  { cbn [map]. destruct (join_head (String LF "") (map log_line rest))
      as [tail H].
    rewrite !H, <- lstrip_log_line. unfold log_line.
    cbn [append]. rewrite !sapp_assoc. cbn [append].
    rewrite !(lstrip_field _ _ "|" eq_refl).
    repeat (progress (rewrite ?sapp_assoc; cbn [append])).
    reflexivity. }
  rewrite L. cbn [on_first].
  destruct (exists_last (l := lstrip_hash r :: rest)) as (init & z & E);
    [discriminate|].
  rewrite E, on_last_snoc, !map_app. cbn [map].
  destruct (join_last (String LF "") (map log_line init)) as [head H].
  rewrite !H, <- rstrip_log_line, !log_line_last.
  rewrite <- (sapp_assoc head).
  rewrite !(rstrip_field _ _ "|" eq_refl). now rewrite sapp_assoc.
Qed.

Lemma lstrip_hash_record (r : commit) :
  one_line_record r -> one_line_record (lstrip_hash r).
Proof.
  intros (H & A & D & L). repeat split; trivial.
  - now apply no_char_lstrip.
  - rewrite <- lstrip_log_line. now apply no_char_lstrip.
Qed.

Lemma rstrip_subject_record (r : commit) :
  one_line_record r -> one_line_record (rstrip_subject r).
Proof.
  intros (H & A & D & L). repeat split; trivial.
  rewrite <- rstrip_log_line. now apply no_char_rstrip.
Qed.

Lemma trim_ends_records (rs : list commit) :
  Forall one_line_record rs -> Forall one_line_record (trim_ends rs).
Proof.
  intros F. unfold trim_ends.
  assert (F1 : Forall one_line_record (on_first lstrip_hash rs)).
  { destruct F as [|r rest Hr Hrest]; cbn [on_first]; constructor; trivial.
    now apply lstrip_hash_record. }
  clear F. induction F1 as [|r rest Hr Hrest IH]; [constructor|].
  cbn [on_last]. destruct rest as [|y ys].
  - constructor; [now apply rstrip_subject_record | constructor].
  - constructor; [exact Hr | exact IH].
Qed.

Lemma trim_ends_nonempty (rs : list commit) : rs <> [] -> trim_ends rs <> [].
Proof.
  unfold trim_ends. destruct rs as [|r [|y ys]]; cbn; congruence.
Qed.

(** Whole outputs of log lines parse to the records, up to the blanks
    that [stdout.strip()] removes at the two ends. *)
Lemma parse_commits_log_output (rs : list commit) :
  Forall one_line_record rs ->
  parse_commits None (transcript (map log_line rs)) = trim_ends rs.
Proof.
  intros F. destruct rs as [|r rest]; [reflexivity|].
  unfold parse_commits. rewrite strip_log_output by discriminate.
  pose proof (trim_ends_records _ F) as F'.
  pose proof (trim_ends_nonempty (r :: rest)) as N.
  destruct (trim_ends (r :: rest)) as [|r' rest']; [now elim N|].
  unfold transcript. cbn [map]. rewrite split_join.
  - now rewrite <- map_cons, commits_loop_records.
  - rewrite <- map_cons. apply Forall_map.
    eapply Forall_impl; [|exact F']. now intros c (_ & _ & _ & L).
Qed.

End WholeOutput.

Section CollectorOutput.

Variable world : Type.
Variable spawn : list string -> world -> proc_outcome * world.
Variable repo_path : string.
Variable since_date : world -> Z -> date_outcome.

(** C8. The bounded split puts everything after the third delimiter in
    the subject, whatever the subject contains, so a line of the loop
    whose hash, author and date are free of the delimiter is appended as
    exactly that record. Of a whole output of such lines the collector
    returns the records in order, except that the blanks at the very start
    of the output (start of the first hash) and at its very end (end of
    the last subject) are gone, removed by [stdout.strip()] before the
    lines are cut. When [git log] exits with status 0 the collector
    returns what the parser makes of its output, and the empty list when
    the output is empty or blank. *)
Theorem get_commits_since_bounded_split :
  (forall h a d s,
      no_char BAR h = true -> no_char BAR a = true ->
      no_char BAR d = true ->
      PyStr.splitn BAR 3 (h ++ "|" ++ a ++ "|" ++ d ++ "|" ++ s)
      = [h; a; d; s])
  /\ (forall commits h a d s,
         no_char BAR h = true -> no_char BAR a = true ->
         no_char BAR d = true ->
         commits_step None commits (h ++ "|" ++ a ++ "|" ++ d ++ "|" ++ s)
         = (commits ++ [mk_commit h a d s])%list)
  /\ (forall rs,
         Forall one_line_record rs ->
         parse_commits None (transcript (map log_line rs)) = trim_ends rs)
  /\ (forall remote_branch days exclude_author st since out err w,
         since_date (repo st) days = DateText since ->
         spawn (log_cmd repo_path since remote_branch) (repo st)
         = (Exited 0 out err, w) ->
         get_commits_since spawn repo_path since_date remote_branch days
                           exclude_author st
         = (Ret (parse_commits exclude_author out), mk_rt w (console st))
         /\ (PyStr.strip out = "" -> parse_commits exclude_author out = [])).
Proof.
  split; [exact splitn_log_line|]. split; [|split].
  - intros commits h a d s Hh Ha Hd.
    now apply commits_step_log_line.
  - exact parse_commits_log_output.
  - intros remote_branch days x st since out err w D S.
    rewrite get_commits_since_spec, D. cbv zeta. rewrite S.
    cbn [negb Z.eqb]. split; [reflexivity | apply parse_commits_blank].
Qed.

End CollectorOutput.

(** A subject that ends in a no-break space, alone in the output: the
    record that comes back has lost that character, so its subject is not
    the whole remainder of the printed line. *)
Lemma bounded_split_loses_trailing_blank :
  let c := mk_commit "1f2e3d4c" "ann" "2025-01-02"
                     ("fix a|b" ++ String NBSP "") in
  let spawn := Scripted.spawn (fun _ => Exited 0 (log_line c) "") in
  let since := fun (_ : Scripted.world) (_ : Z) => DateText "2025-01-01" in
  one_line_record c
  /\ fst (get_commits_since spawn "." since "bluefin/main" 7 None
                            Scripted.start)
     = Ret [mk_commit "1f2e3d4c" "ann" "2025-01-02" "fix a|b"]
  /\ fst (get_commits_since spawn "." since "bluefin/main" 7 None
                            Scripted.start)
     <> Ret [c].
Proof.
  intros c spawn since. split; [now repeat split|].
  split; [reflexivity | discriminate].
Qed.

Lemma get_commits_since_bounded_split_witness :
  let spawn := Scripted.spawn (fun _ => Exited 0 "" "") in
  let since := fun (_ : Scripted.world) (_ : Z) => DateText "2025-01-01" in
  let a := mk_commit (String " " "1f2e3d4c") "ann" "2025-01-02"
                     "fix a|b (#7)" in
  let b := mk_commit "5a6b7c8d" "bob" "2025-01-01" ("||" ++ String NBSP "") in
  no_char BAR "1f2e3d4c" = true
  /\ commits_step None [] "1f2e3d4c|ann|2025-01-02|fix a|b (#7)"
     = [mk_commit "1f2e3d4c" "ann" "2025-01-02" "fix a|b (#7)"]
  /\ Forall one_line_record [a; b]
  /\ parse_commits None (transcript (map log_line [a; b]))
     = [mk_commit "1f2e3d4c" "ann" "2025-01-02" "fix a|b (#7)";
        mk_commit "5a6b7c8d" "bob" "2025-01-01" "||"]
  /\ get_commits_since spawn "." since "bluefin/main" 7 None Scripted.start
     = (Ret [], Scripted.start).
Proof.
  intros spawn since a b.
  destruct (get_commits_since_bounded_split Scripted.world spawn "." since)
    as (_ & Hstep & Hall & Hrun).
  assert (F : Forall one_line_record [a; b]) by (repeat constructor).
  split; [reflexivity|]. split; [|split; [exact F|split]].
  - exact (Hstep [] "1f2e3d4c" "ann" "2025-01-02" "fix a|b (#7)"
                 eq_refl eq_refl eq_refl).
  - exact (Hall [a; b] F).
  - destruct (Hrun "bluefin/main" 7%Z None Scripted.start "2025-01-01"
                   "" "" tt eq_refl eq_refl) as [E B].
    rewrite E, (B eq_refl). reflexivity.
Defined.

(* ================================================================== *)
(** * CompatibilityOracle: effects and transcripts *)
(* ================================================================== *)

(** C9. The only things a call of the oracle does to the repository are
    its two git commands: the repository afterwards is the one left by
    [git rev-parse <hash>^] and, when that exited with status 0, by
    [git merge-tree <parent> HEAD <hash>] run after it. So when these two
    invocations leave the repository as it is, the call leaves it as it
    is, and a second call right after it returns the same outcome. And
    the outcome depends on nothing but the two transcripts: two calls on
    the same commit, in whatever repositories, paths and states, return
    the same outcome as soon as [rev-parse] answers the same in both and,
    where it exited with status 0, [merge-tree] answers the same in
    both. *)
Theorem oracle_repeatable :
  (forall (world : Type)
          (spawn : list string -> world -> proc_outcome * world)
          (repo_path : string) (cpe_str : list string -> Z -> string)
          (commit_hash : string) (st : rt world),
      repo (snd (can_cherry_pick_cleanly spawn repo_path cpe_str
                                         commit_hash st))
      = match spawn (rev_parse_cmd repo_path commit_hash) (repo st) with
        | (Exited 0 out _, w) =>
            snd (spawn (merge_tree_cmd repo_path (PyStr.strip out)
                                       commit_hash) w)
        | (_, w) => w
        end)
  /\ (forall (world : Type)
             (spawn : list string -> world -> proc_outcome * world)
             (repo_path : string) (cpe_str : list string -> Z -> string)
             (commit_hash : string) (st : rt world),
         let run := can_cherry_pick_cleanly spawn repo_path cpe_str
                                            commit_hash in
         snd (spawn (rev_parse_cmd repo_path commit_hash) (repo st))
         = repo st ->
         (forall out err w,
             spawn (rev_parse_cmd repo_path commit_hash) (repo st)
             = (Exited 0 out err, w) ->
             snd (spawn (merge_tree_cmd repo_path (PyStr.strip out)
                                        commit_hash) (repo st))
             = repo st) ->
         repo (snd (run st)) = repo st
         /\ fst (run (snd (run st))) = fst (run st))
  /\ (forall (world1 world2 : Type)
             (spawn1 : list string -> world1 -> proc_outcome * world1)
             (spawn2 : list string -> world2 -> proc_outcome * world2)
             (path1 path2 : string)
             (cpe_str1 cpe_str2 : list string -> Z -> string)
             (commit_hash : string) (st1 : rt world1) (st2 : rt world2),
         let rev1 := spawn1 (rev_parse_cmd path1 commit_hash) (repo st1) in
         let rev2 := spawn2 (rev_parse_cmd path2 commit_hash) (repo st2) in
         fst rev1 = fst rev2 ->
         (forall out err,
             fst rev1 = Exited 0 out err ->
             fst (spawn1 (merge_tree_cmd path1 (PyStr.strip out) commit_hash)
                         (snd rev1))
             = fst (spawn2 (merge_tree_cmd path2 (PyStr.strip out)
                                           commit_hash)
                           (snd rev2))) ->
         fst (can_cherry_pick_cleanly spawn1 path1 cpe_str1 commit_hash st1)
         = fst (can_cherry_pick_cleanly spawn2 path2 cpe_str2 commit_hash
                                        st2)).
Proof.
  assert (Effect :
    forall (world : Type)
           (spawn : list string -> world -> proc_outcome * world)
           (repo_path : string) (cpe_str : list string -> Z -> string)
           (commit_hash : string) (st : rt world),
      repo (snd (can_cherry_pick_cleanly spawn repo_path cpe_str
                                         commit_hash st))
      = match spawn (rev_parse_cmd repo_path commit_hash) (repo st) with
        | (Exited 0 out _, w) =>
            snd (spawn (merge_tree_cmd repo_path (PyStr.strip out)
                                       commit_hash) w)
        | (_, w) => w
        end).
  { intros world spawn repo_path cpe_str commit_hash st.
    rewrite can_cherry_pick_cleanly_spec. unfold rev_parse_cmd.
    destruct (spawn _ (repo st)) as [[rc out err|msg|] w]; try reflexivity.
    destruct rc; cbn [Z.eqb negb]; try reflexivity.
    unfold merge_tree_cmd.
    now destruct (spawn _ w) as [[rc2 out2 err2|msg|] w2]. }
  assert (Transcripts :
    forall (world1 world2 : Type)
           (spawn1 : list string -> world1 -> proc_outcome * world1)
           (spawn2 : list string -> world2 -> proc_outcome * world2)
           (path1 path2 : string)
           (cpe_str1 cpe_str2 : list string -> Z -> string)
           (commit_hash : string) (st1 : rt world1) (st2 : rt world2),
      let rev1 := spawn1 (rev_parse_cmd path1 commit_hash) (repo st1) in
      let rev2 := spawn2 (rev_parse_cmd path2 commit_hash) (repo st2) in
      fst rev1 = fst rev2 ->
      (forall out err,
          fst rev1 = Exited 0 out err ->
          fst (spawn1 (merge_tree_cmd path1 (PyStr.strip out) commit_hash)
                      (snd rev1))
          = fst (spawn2 (merge_tree_cmd path2 (PyStr.strip out) commit_hash)
                        (snd rev2))) ->
      fst (can_cherry_pick_cleanly spawn1 path1 cpe_str1 commit_hash st1)
      = fst (can_cherry_pick_cleanly spawn2 path2 cpe_str2 commit_hash st2)).
  { intros world1 world2 spawn1 spawn2 path1 path2 cpe1 cpe2 commit_hash
           st1 st2 rev1 rev2 R M.
    rewrite !can_cherry_pick_cleanly_spec.
    fold (rev_parse_cmd path1 commit_hash).
    fold (rev_parse_cmd path2 commit_hash).
    fold rev1. fold rev2.
    destruct rev1 as [o1 w1] eqn:E1. destruct rev2 as [o2 w2] eqn:E2.
    cbn [fst snd] in R, M. subst o2.
    destruct o1 as [rc out err|msg|]; try reflexivity.
    destruct rc; cbn [Z.eqb negb]; try reflexivity.
    specialize (M out err eq_refl). unfold merge_tree_cmd in M.
    destruct (spawn1 _ w1) as [p1 w1']. destruct (spawn2 _ w2) as [p2 w2'].
    cbn [fst] in M. subst p2.
    now destruct p1. }
  split; [exact Effect|]. split; [|exact Transcripts].
  intros world spawn repo_path cpe_str commit_hash st run R M.
  assert (Keep : repo (snd (run st)) = repo st).
  { unfold run. rewrite Effect.
    destruct (spawn (rev_parse_cmd repo_path commit_hash) (repo st))
      as [o w] eqn:E.
    cbn [snd] in R. subst w.
    destruct o as [rc out err|msg|]; try reflexivity.
    destruct rc; try reflexivity. exact (M out err _ eq_refl). }
  split; [exact Keep|].
  apply Transcripts; rewrite Keep; reflexivity.
Qed.

Lemma oracle_repeatable_witness :
  let script := merge_tree_prints hunk_with_marker in
  let spawn := Counting.spawn script in
  let run := can_cherry_pick_cleanly spawn "." Scripted.cpe_str "c0ffee" in
  snd (spawn (rev_parse_cmd "." "c0ffee") 7) = 7
  /\ repo (snd (run (mk_rt 7 []))) = 7
  /\ fst (run (snd (run (mk_rt 7 [])))) = fst (run (mk_rt 7 []))
  /\ fst (run (mk_rt 7 []))
     = fst (can_cherry_pick_cleanly (Scripted.spawn script) "/srv/aurora"
                                    Scripted.cpe_str "c0ffee"
                                    (mk_rt tt ["earlier output"])).
Proof.
  intros script spawn run.
  destruct oracle_repeatable as (_ & Same & Transcripts).
  assert (R : snd (spawn (rev_parse_cmd "." "c0ffee") 7) = 7)
    by reflexivity.
  destruct (Same Counting.world spawn "." Scripted.cpe_str "c0ffee"
                 (mk_rt 7 []) R) as [Keep Again].
  { intros out err w _. reflexivity. }
  split; [exact R|]. split; [exact Keep|]. split; [exact Again|].
  apply (Transcripts Counting.world Scripted.world spawn
                     (Scripted.spawn script) "." "/srv/aurora").
  - reflexivity.
  - intros out err _. reflexivity.
Defined.
